(** * IMU firmware: SHTP packet engine, report decoder and BLE bridge

    A shallow embedding of the firmware sources
      - [src/bno085.c], [include/bno085.h], [include/shtp.h]  (SHTP codec and
        SH-2 report decoder),
      - [src/twim.c] (the interface of the blocking I2C transfers),
      - [src/ble_imu_service.c] (GATT bridge),
      - [src/ble_advertising.c] (advertising policy),
    followed by the properties established about them.

    Conventions.  C integers are [Z] with the wrap-around of their width
    written out ([u8], [u16], [u32], [s16]).  Byte arrays are [list Z] and are
    read and written by index.  A pointer that may be [NULL] is an [option].
    The peripherals the firmware talks to (the I2C bus, the SoftDevice) are
    records holding the replies they are going to give and the calls they
    have received. *)

From Stdlib Require Import ZArith List Bool Lia QArith Qpower Field.
From Stdlib Require Import Floats.SpecFloat.
From stdpp Require Import base list.

Open Scope Z_scope.

(** ** Machine integers *)

Definition u8  (z : Z) : Z := z mod 256.
Definition u16 (z : Z) : Z := z mod 65536.
Definition u32 (z : Z) : Z := z mod 4294967296.

(** The cast [(int16_t)x] of a value that fits 16 bits. *)
Definition s16 (z : Z) : Z :=
  let w := u16 z in if w <? 32768 then w else w - 65536.

(** [buf[i]].  Every index the firmware uses lies inside its buffer as long as
    the buffer has its declared size; outside it the model reads 0. *)
Definition byte_at (buf : list Z) (i : Z) : Z :=
  default 0 (buf !! Z.to_nat i).

(** [memcpy(&buf[off], src, n)] for a region that lies inside [buf]. *)
Definition memcpy_at (buf : list Z) (off : Z) (src : list Z) (n : Z) : list Z :=
  list_inserts (Z.to_nat off) (take (Z.to_nat n) src) buf.

(** ** The I2C transport ([twim.c]) *)

Module Twim.

Definition TWIM_OK                := 0.
Definition TWIM_ERR_ANACK         := -1.
Definition TWIM_ERR_DNACK         := -2.
Definition TWIM_ERR_OVERRUN       := -3.
Definition TWIM_ERR_TIMEOUT       := -4.
Definition TWIM_ERR_BUSY          := -5.
Definition TWIM_ERR_INVALID_PARAM := -6.

(** The bus as the driver sees it.  A transfer that completes returns the
    amount register of the peripheral; one that fails returns a negative
    code.  [rx_replies] lists, for the coming read transfers, the returned
    value and the bytes EasyDMA stores in the caller's buffer;
    [tx_replies] lists the returned values of the coming write transfers.
    When nothing is left to answer, the wait for the STOPPED event times
    out.  [tx_frames] records the write transfers started, oldest first. *)
Record twim_t := {
  initialized : bool;
  tx_replies  : list Z;
  rx_replies  : list (Z * list Z);
  tx_frames   : list (Z * list Z)
}.

(** [twim_write(twim, addr, data, len, stop)]; [data] is never [NULL] at
    the call sites modelled here.  [stop] selects the event the driver
    waits for, which the replies of the bus already account for. *)
Definition twim_write (tw : twim_t) (addr : Z) (data : list Z) (len : Z)
    (stop : bool) : Z * twim_t :=
  if negb (initialized tw) then (TWIM_ERR_INVALID_PARAM, tw)
  else if len =? 0 then (TWIM_ERR_INVALID_PARAM, tw)
  else
    let frames := tx_frames tw ++ [(addr, take (Z.to_nat len) data)] in
    match tx_replies tw with
    | [] =>
        (TWIM_ERR_TIMEOUT,
         {| initialized := true; tx_replies := [];
            rx_replies := rx_replies tw; tx_frames := frames |})
    | r :: rest =>
        (r,
         {| initialized := true; tx_replies := rest;
            rx_replies := rx_replies tw; tx_frames := frames |})
    end.

(** [twim_read(twim, addr, data, len)]: returns the result, the bytes
    stored at the start of [data] (never more than [len]) and the bus. *)
Definition twim_read (tw : twim_t) (addr : Z) (len : Z)
  : Z * list Z * twim_t :=
  if negb (initialized tw) then (TWIM_ERR_INVALID_PARAM, [], tw)
  else if len =? 0 then (TWIM_ERR_INVALID_PARAM, [], tw)
  else
    match rx_replies tw with
    | [] => (TWIM_ERR_TIMEOUT, [], tw)
    | (r, stored) :: rest =>
        (r, take (Z.to_nat len) stored,
         {| initialized := true; tx_replies := tx_replies tw;
            rx_replies := rest; tx_frames := tx_frames tw |})
    end.

(** A bus on which a device answers the next reads with the bytes of
    [frame], in the two transfers a receiver makes: the 4-byte header,
    then the rest. *)
Definition serving (frame : list Z) : twim_t :=
  {| initialized := true; tx_replies := [];
     rx_replies := [ (4, take 4 frame);
                     (Z.of_nat (length frame) - 4, drop 4 frame) ];
     tx_frames := [] |}.

End Twim.

(** ** SHTP constants ([shtp.h]) and driver types ([bno085.h]) *)

Module Bno085.

Import Twim.

Definition SHTP_CHANNEL_COMMAND      := 0.
Definition SHTP_CHANNEL_EXECUTABLE   := 1.
Definition SHTP_CHANNEL_CONTROL      := 2.
Definition SHTP_CHANNEL_REPORTS      := 3.
Definition SHTP_CHANNEL_WAKE_REPORTS := 4.
Definition SHTP_CHANNEL_GYRO_RV      := 5.

Definition SHTP_HEADER_SIZE := 4.

Definition SH2_ACCELEROMETER        := 0x01.
Definition SH2_GYROSCOPE            := 0x02.
Definition SH2_MAGNETOMETER         := 0x03.
Definition SH2_LINEAR_ACCELERATION  := 0x04.
Definition SH2_ROTATION_VECTOR      := 0x05.
Definition SH2_GRAVITY              := 0x06.
Definition SH2_GAME_ROTATION_VECTOR := 0x08.
Definition SH2_GEOMAGNETIC_ROTATION := 0x09.
Definition SH2_STEP_COUNTER         := 0x11.
Definition SH2_STABILITY_CLASSIFIER := 0x13.

Definition SHTP_Q_ROTATION_VECTOR := 14.
Definition SHTP_Q_ACCELEROMETER   := 8.
Definition SHTP_Q_GYROSCOPE       := 9.
Definition SHTP_Q_MAGNETOMETER    := 4.
Definition SHTP_Q_ACCURACY        := 12.

Definition BNO085_OK                  := 0.
Definition BNO085_ERR_I2C             := -1.
Definition BNO085_ERR_TIMEOUT         := -2.
Definition BNO085_ERR_NOT_FOUND       := -3.
Definition BNO085_ERR_INVALID_DATA    := -4.
Definition BNO085_ERR_NOT_READY       := -5.
Definition BNO085_ERR_BUFFER_OVERFLOW := -6.
Definition BNO085_ERR_INVALID_PARAM   := -7.

(** [sizeof(tx_buffer)] in [bno085_send_packet] and
    [sizeof(dev->rx_buffer)]. *)
Definition TX_BUFFER_SIZE := 256.
Definition RX_BUFFER_SIZE := 512.

(** [bno085_t] *)
Record bno085_t := {
  i2c_addr         : Z;
  int_pin          : Z;
  rst_pin          : Z;
  initialized      : bool;
  sequence         : list Z;      (* uint8_t sequence[6] *)
  sw_version_major : Z;
  sw_version_minor : Z;
  sw_version_patch : Z;
  sw_part_number   : Z;
  sw_build_number  : Z;
  rx_buffer        : list Z;      (* uint8_t rx_buffer[512] *)
  rx_len           : Z;
  enabled_reports  : Z
}.

Definition set_sequence (dev : bno085_t) (s : list Z) : bno085_t :=
  {| i2c_addr := i2c_addr dev; int_pin := int_pin dev;
     rst_pin := rst_pin dev; initialized := initialized dev;
     sequence := s;
     sw_version_major := sw_version_major dev;
     sw_version_minor := sw_version_minor dev;
     sw_version_patch := sw_version_patch dev;
     sw_part_number := sw_part_number dev;
     sw_build_number := sw_build_number dev;
     rx_buffer := rx_buffer dev; rx_len := rx_len dev;
     enabled_reports := enabled_reports dev |}.

Definition set_rx (dev : bno085_t) (buf : list Z) (len : Z) : bno085_t :=
  {| i2c_addr := i2c_addr dev; int_pin := int_pin dev;
     rst_pin := rst_pin dev; initialized := initialized dev;
     sequence := sequence dev;
     sw_version_major := sw_version_major dev;
     sw_version_minor := sw_version_minor dev;
     sw_version_patch := sw_version_patch dev;
     sw_part_number := sw_part_number dev;
     sw_build_number := sw_build_number dev;
     rx_buffer := buf; rx_len := len;
     enabled_reports := enabled_reports dev |}.

(** The handle as the C types make it: six counters and 512 buffer bytes,
    every one an 8-bit value, and a 16-bit length. *)
Definition is_byte (b : Z) : Prop := 0 <= b < 256.

Record bno085_wf (dev : bno085_t) : Prop := {
  wf_sequence_len : length (sequence dev) = 6%nat;
  wf_sequence     : Forall is_byte (sequence dev);
  wf_rx_len       : length (rx_buffer dev) = 512%nat;
  wf_rx_bytes     : Forall is_byte (rx_buffer dev);
  wf_rx_len16     : 0 <= rx_len dev < 65536
}.

(** *** [bno085_send_packet]

    [tx_buffer] is the automatic array of the function, whose contents are
    indeterminate on entry, so the caller of the model supplies them.
    [data] is the payload pointer and [len] the [uint16_t] length.  The
    result is [None] where the C code reaches past an array: a channel
    that is no index of [sequence], or a copy that does not fit
    [tx_buffer] or reads past the end of [data]. *)
Definition bno085_send_packet (tw : twim_t) (dev : bno085_t)
    (tx_buffer : list Z) (channel : Z) (data : option (list Z)) (len : Z)
  : option (Z * bno085_t * twim_t) :=
  let packet_len := u16 (len + SHTP_HEADER_SIZE) in
  if packet_len >? TX_BUFFER_SIZE then
    Some (BNO085_ERR_BUFFER_OVERFLOW, dev, tw)
  else
    match sequence dev !! Z.to_nat channel with
    | None => None
    | Some seq =>
        let tx := <[0%nat := Z.land packet_len 0xFF]> tx_buffer in
        let tx := <[1%nat := Z.land (Z.shiftr packet_len 8) 0x7F]> tx in
        let tx := <[2%nat := channel]> tx in
        let tx := <[3%nat := seq]> tx in
        let dev' :=
          set_sequence dev (<[Z.to_nat channel := u8 (seq + 1)]> (sequence dev)) in
        let copied :=
          match data with
          | Some bytes =>
              if len >? 0 then
                if (4 + len <=? TX_BUFFER_SIZE)
                   && (len <=? Z.of_nat (length bytes))
                then Some (memcpy_at tx 4 bytes len)
                else None
              else Some tx
          | None => Some tx
          end in
        match copied with
        | None => None
        | Some tx =>
            let '(result, tw') :=
              twim_write tw (i2c_addr dev) tx packet_len true in
            if result <? 0 then Some (BNO085_ERR_I2C, dev', tw')
            else Some (BNO085_OK, dev', tw')
        end
    end.

(** *** [bno085_receive_packet]

    [header] is the automatic 4-byte array, indeterminate on entry. *)
Definition bno085_receive_packet (tw : twim_t) (dev : bno085_t)
    (header : list Z) (timeout_ms : Z)
  : Z * bno085_t * twim_t :=
  let '(result, stored, tw1) := twim_read tw (i2c_addr dev) 4 in
  let header := memcpy_at header 0 stored 4 in
  if result <? 0 then (BNO085_ERR_I2C, dev, tw1)
  else
    let packet_len :=
      u16 (Z.lor (byte_at header 0)
                 (Z.shiftl (Z.land (byte_at header 1) 0x7F) 8)) in
    if (packet_len =? 0) || (packet_len =? 0x7FFF) then (0, dev, tw1)
    else if packet_len <? SHTP_HEADER_SIZE then
      (BNO085_ERR_INVALID_DATA, dev, tw1)
    else if packet_len >? RX_BUFFER_SIZE then
      (BNO085_ERR_BUFFER_OVERFLOW, dev, tw1)
    else
      let buf := memcpy_at (rx_buffer dev) 0 header 4 in
      let payload_len := u16 (packet_len - SHTP_HEADER_SIZE) in
      if payload_len >? 0 then
        let '(result, stored, tw2) :=
          twim_read tw1 (i2c_addr dev) payload_len in
        let buf := memcpy_at buf 4 stored payload_len in
        if result <? 0 then
          (BNO085_ERR_I2C, set_rx dev buf (rx_len dev), tw2)
        else (packet_len, set_rx dev buf packet_len, tw2)
      else (packet_len, set_rx dev buf packet_len, tw1).

(** The packet a handle holds after a receive: channel byte and payload. *)
Definition rx_channel (dev : bno085_t) : Z := byte_at (rx_buffer dev) 2.
Definition rx_sequence (dev : bno085_t) : Z := byte_at (rx_buffer dev) 3.
Definition rx_payload (dev : bno085_t) : list Z :=
  take (Z.to_nat (rx_len dev - SHTP_HEADER_SIZE))
       (drop (Z.to_nat SHTP_HEADER_SIZE) (rx_buffer dev)).


(** *** Decoded samples ([bno085.h])

    A C [float] is an IEEE-754 binary32 number: [spec_float] at precision
    24 and maximal exponent 128. *)
Definition f32_prec := 24.
Definition f32_emax := 128.

(** [(float)z] for an integer [z] (round to nearest even). *)
Definition f32_of_int (z : Z) : spec_float :=
  binary_normalize f32_prec f32_emax z 0 false.

Definition f32_div (x y : spec_float) : spec_float :=
  SFdiv f32_prec f32_emax x y.

Definition f32_zero : spec_float := S754_zero false.

(** [SHTP_Q_TO_FLOAT(val, q)], that is [(float)(val) / (float)(1 << (q))]. *)
Definition SHTP_Q_TO_FLOAT (val q : Z) : spec_float :=
  f32_div (f32_of_int val) (f32_of_int (Z.shiftl 1 q)).

(** [bno085_quaternion_t] *)
Record bno085_quaternion_t := {
  q_i            : spec_float;
  q_j            : spec_float;
  q_k            : spec_float;
  q_real         : spec_float;
  q_accuracy_rad : spec_float;
  q_status       : Z
}.

(** [bno085_vector_t] *)
Record bno085_vector_t := {
  v_x        : spec_float;
  v_y        : spec_float;
  v_z        : spec_float;
  v_accuracy : Z
}.

(** [bno085_data_t] *)
Record bno085_data_t := {
  rotation_vector : bno085_quaternion_t;
  game_rotation   : bno085_quaternion_t;
  accelerometer   : bno085_vector_t;
  gyroscope       : bno085_vector_t;
  magnetometer    : bno085_vector_t;
  linear_accel    : bno085_vector_t;
  gravity         : bno085_vector_t;
  step_count      : Z;
  stability       : Z;
  timestamp_us    : Z;
  report_id       : Z
}.

(** The members of [bno085_data_t] a report is decoded into. *)
Inductive data_member :=
| RotationVector (q : bno085_quaternion_t)
| GameRotation (q : bno085_quaternion_t)
| Accelerometer (v : bno085_vector_t)
| Gyroscope (v : bno085_vector_t)
| Magnetometer (v : bno085_vector_t)
| LinearAccel (v : bno085_vector_t)
| Gravity (v : bno085_vector_t)
| StepCount (n : Z)
| Stability (c : Z).

(** Assignment to one member followed by [data->report_id = id]. *)
Definition store_report (data : bno085_data_t) (m : data_member) (id : Z)
  : bno085_data_t :=
  {| rotation_vector :=
       match m with RotationVector q => q | _ => rotation_vector data end;
     game_rotation :=
       match m with GameRotation q => q | _ => game_rotation data end;
     accelerometer :=
       match m with Accelerometer v => v | _ => accelerometer data end;
     gyroscope :=
       match m with Gyroscope v => v | _ => gyroscope data end;
     magnetometer :=
       match m with Magnetometer v => v | _ => magnetometer data end;
     linear_accel :=
       match m with LinearAccel v => v | _ => linear_accel data end;
     gravity :=
       match m with Gravity v => v | _ => gravity data end;
     step_count :=
       match m with StepCount n => n | _ => step_count data end;
     stability :=
       match m with Stability c => c | _ => stability data end;
     timestamp_us := timestamp_us data;
     report_id := id |}.

(** [(int16_t)(lo | (hi << 8))] *)
Definition le_int16 (lo hi : Z) : Z := s16 (Z.lor lo (Z.shiftl hi 8)).

(** The three axes of a vector report, scaled by [q]. *)
Definition decode_vector (payload : Z -> Z) (q : Z) : bno085_vector_t :=
  let x := le_int16 (payload 5) (payload 6) in
  let y := le_int16 (payload 7) (payload 8) in
  let z := le_int16 (payload 9) (payload 10) in
  {| v_x := SHTP_Q_TO_FLOAT x q;
     v_y := SHTP_Q_TO_FLOAT y q;
     v_z := SHTP_Q_TO_FLOAT z q;
     v_accuracy := Z.land (payload 2) 0x03 |}.

(** *** [bno085_parse_sensor_report]

    Returns the [int] result and the contents of [*data] afterwards. *)
Definition bno085_parse_sensor_report (dev : bno085_t) (data : bno085_data_t)
  : Z * bno085_data_t :=
  let channel := byte_at (rx_buffer dev) 2 in
  let payload := fun i => byte_at (rx_buffer dev) (SHTP_HEADER_SIZE + i) in
  let payload_len := u16 (rx_len dev - SHTP_HEADER_SIZE) in
  if negb (channel =? SHTP_CHANNEL_REPORTS) then (0, data)
  else if payload_len <? 5 then (BNO085_ERR_INVALID_DATA, data)
  else
    let id := payload 0 in
    if (id =? SH2_ROTATION_VECTOR) || (id =? SH2_GAME_ROTATION_VECTOR)
       || (id =? SH2_GEOMAGNETIC_ROTATION) then
      if payload_len <? 14 then (BNO085_ERR_INVALID_DATA, data)
      else
        let i := le_int16 (payload 5) (payload 6) in
        let j := le_int16 (payload 7) (payload 8) in
        let k := le_int16 (payload 9) (payload 10) in
        let real := le_int16 (payload 11) (payload 12) in
        let quat :=
          {| q_i := SHTP_Q_TO_FLOAT i SHTP_Q_ROTATION_VECTOR;
             q_j := SHTP_Q_TO_FLOAT j SHTP_Q_ROTATION_VECTOR;
             q_k := SHTP_Q_TO_FLOAT k SHTP_Q_ROTATION_VECTOR;
             q_real := SHTP_Q_TO_FLOAT real SHTP_Q_ROTATION_VECTOR;
             q_accuracy_rad :=
               if (id =? SH2_ROTATION_VECTOR) && (payload_len >=? 16) then
                 SHTP_Q_TO_FLOAT (le_int16 (payload 13) (payload 14))
                                 SHTP_Q_ACCURACY
               else f32_zero;
             q_status := Z.land (payload 2) 0x03 |} in
        if id =? SH2_GAME_ROTATION_VECTOR
        then (id, store_report data (GameRotation quat) id)
        else (id, store_report data (RotationVector quat) id)
    else if (id =? SH2_ACCELEROMETER) || (id =? SH2_LINEAR_ACCELERATION)
            || (id =? SH2_GRAVITY) then
      if payload_len <? 10 then (BNO085_ERR_INVALID_DATA, data)
      else
        let vec := decode_vector payload SHTP_Q_ACCELEROMETER in
        if id =? SH2_ACCELEROMETER
        then (id, store_report data (Accelerometer vec) id)
        else if id =? SH2_LINEAR_ACCELERATION
        then (id, store_report data (LinearAccel vec) id)
        else (id, store_report data (Gravity vec) id)
    else if id =? SH2_GYROSCOPE then
      if payload_len <? 10 then (BNO085_ERR_INVALID_DATA, data)
      else
        (id, store_report data
               (Gyroscope (decode_vector payload SHTP_Q_GYROSCOPE)) id)
    else if id =? SH2_MAGNETOMETER then
      if payload_len <? 10 then (BNO085_ERR_INVALID_DATA, data)
      else
        (id, store_report data
               (Magnetometer (decode_vector payload SHTP_Q_MAGNETOMETER)) id)
    else if id =? SH2_STEP_COUNTER then
      if payload_len <? 9 then (BNO085_ERR_INVALID_DATA, data)
      else
        let count :=
          u32 (Z.lor (Z.lor (Z.lor (payload 5) (Z.shiftl (payload 6) 8))
                            (Z.shiftl (payload 7) 16))
                     (Z.shiftl (payload 8) 24)) in
        (id, store_report data (StepCount count) id)
    else if id =? SH2_STABILITY_CLASSIFIER then
      if payload_len <? 6 then (BNO085_ERR_INVALID_DATA, data)
      else (id, store_report data (Stability (payload 5)) id)
    else (0, data).

(** The report ids the [switch] of the decoder has a case for, and the
    length below which that case returns before storing anything. *)
Definition known_report_ids : list Z :=
  [ SH2_ROTATION_VECTOR; SH2_GAME_ROTATION_VECTOR; SH2_GEOMAGNETIC_ROTATION;
    SH2_ACCELEROMETER; SH2_LINEAR_ACCELERATION; SH2_GRAVITY;
    SH2_GYROSCOPE; SH2_MAGNETOMETER; SH2_STEP_COUNTER;
    SH2_STABILITY_CLASSIFIER ].

Definition report_min_len (id : Z) : Z :=
  if (id =? SH2_ROTATION_VECTOR) || (id =? SH2_GAME_ROTATION_VECTOR)
     || (id =? SH2_GEOMAGNETIC_ROTATION) then 14
  else if (id =? SH2_ACCELEROMETER) || (id =? SH2_LINEAR_ACCELERATION)
          || (id =? SH2_GRAVITY) || (id =? SH2_GYROSCOPE)
          || (id =? SH2_MAGNETOMETER) then 10
  else if id =? SH2_STEP_COUNTER then 9
  else if id =? SH2_STABILITY_CLASSIFIER then 6
  else 5.

(** The value a binary32 number stands for; [None] for infinities and NaN. *)
Definition f32_value (f : spec_float) : option Q :=
  match f with
  | S754_zero _ => Some 0%Q
  | S754_finite s m e =>
      Some (inject_Z (cond_Zopp s (Z.pos m)) * Qpower 2 e)%Q
  | _ => None
  end.


(** The packet of the SHTP wire format for a channel, a sequence number
    and a payload: [len_lsb, len_msb, channel, seq] and the payload,
    where the length counts the header. *)
Definition shtp_frame (channel seq : Z) (payload : list Z) : list Z :=
  let packet_len := Z.of_nat (length payload) + 4 in
  [ packet_len mod 256; (packet_len / 256) mod 128; channel; seq ]
    ++ payload.

(** [f] is a finite float that stands for the rational [x]. *)
Definition f32_is (f : spec_float) (x : Q) : Prop :=
  exists v : Q, f32_value f = Some v /\ (v == x)%Q.

(** [f] stands for exactly [raw / 2^q]. *)
Definition exact_q (q : Z) (f : spec_float) (raw : Z) : Prop :=
  f32_is f (inject_Z raw / inject_Z (2 ^ q)).

(** The binary point of the fields of a report, by report id. *)
Definition report_q (id : Z) : Z :=
  if (id =? SH2_ROTATION_VECTOR) || (id =? SH2_GAME_ROTATION_VECTOR)
     || (id =? SH2_GEOMAGNETIC_ROTATION) then SHTP_Q_ROTATION_VECTOR
  else if id =? SH2_GYROSCOPE then SHTP_Q_GYROSCOPE
  else if id =? SH2_MAGNETOMETER then SHTP_Q_MAGNETOMETER
  else SHTP_Q_ACCELEROMETER.

(** The report ids whose fields are fixed-point numbers. *)
Definition fixed_point_report_ids : list Z :=
  [ SH2_ROTATION_VECTOR; SH2_GAME_ROTATION_VECTOR; SH2_GEOMAGNETIC_ROTATION;
    SH2_ACCELEROMETER; SH2_LINEAR_ACCELERATION; SH2_GRAVITY;
    SH2_GYROSCOPE; SH2_MAGNETOMETER ].

(** The signed 16-bit fields the packet in [dev] carries from payload
    offset 5 on: four for a quaternion, three for a vector. *)
Definition raw_fields (dev : bno085_t) (id : Z) : list Z :=
  let payload := fun i => byte_at (rx_buffer dev) (SHTP_HEADER_SIZE + i) in
  let xyz := [ le_int16 (payload 5) (payload 6);
               le_int16 (payload 7) (payload 8);
               le_int16 (payload 9) (payload 10) ] in
  if report_q id =? SHTP_Q_ROTATION_VECTOR
  then xyz ++ [ le_int16 (payload 11) (payload 12) ]
  else xyz.

(** The floats of the member of [bno085_data_t] that report [id] is
    stored in. *)
Definition quat_fields (q : bno085_quaternion_t) : list spec_float :=
  [ q_i q; q_j q; q_k q; q_real q ].
Definition vector_fields (v : bno085_vector_t) : list spec_float :=
  [ v_x v; v_y v; v_z v ].
Definition decoded_fields (data : bno085_data_t) (id : Z) : list spec_float :=
  if id =? SH2_GAME_ROTATION_VECTOR then quat_fields (game_rotation data)
  else if (id =? SH2_ROTATION_VECTOR) || (id =? SH2_GEOMAGNETIC_ROTATION)
  then quat_fields (rotation_vector data)
  else if id =? SH2_ACCELEROMETER then vector_fields (accelerometer data)
  else if id =? SH2_LINEAR_ACCELERATION
  then vector_fields (linear_accel data)
  else if id =? SH2_GRAVITY then vector_fields (gravity data)
  else if id =? SH2_GYROSCOPE then vector_fields (gyroscope data)
  else vector_fields (magnetometer data).

End Bno085.

(** ** The SoftDevice interface ([ble.h], [ble_gap.h], [ble_gatts.h]) *)

Module SoftDevice.

Definition NRF_SUCCESS              := 0.
Definition NRF_ERROR_NO_MEM         := 4.
Definition NRF_ERROR_INVALID_PARAM  := 7.
Definition NRF_ERROR_INVALID_STATE  := 8.
Definition NRF_ERROR_INVALID_LENGTH := 9.
Definition NRF_ERROR_NULL           := 14.
Definition NRF_ERROR_RESOURCES      := 19.

Definition BLE_CONN_HANDLE_INVALID        := 0xFFFF.
Definition BLE_GAP_ADV_SET_HANDLE_NOT_SET := 0xFF.
Definition BLE_UUID_TYPE_UNKNOWN          := 0x00.
Definition BLE_UUID_TYPE_BLE              := 0x01.
Definition BLE_APPEARANCE_GENERIC_TAG     := 512.
Definition BLE_STACK_DEVICE_NAME_MAX_LEN  := 32.

Definition BLE_GAP_EVT_CONNECTED          := 0x10.
Definition BLE_GAP_EVT_DISCONNECTED       := 0x11.
Definition BLE_GATTS_EVT_WRITE            := 0x50.
Definition BLE_GATTS_EVT_HVN_TX_COMPLETE  := 0x57.

Definition BLE_GATT_HVX_NOTIFICATION := 0x01.

Definition BLE_GAP_ADV_SET_DATA_SIZE_MAX := 31.
Definition BLE_GAP_AD_TYPE_FLAGS                       := 0x01.
Definition BLE_GAP_AD_TYPE_16BIT_SERVICE_UUID_COMPLETE := 0x03.
Definition BLE_GAP_AD_TYPE_SHORT_LOCAL_NAME            := 0x08.
Definition BLE_GAP_AD_TYPE_COMPLETE_LOCAL_NAME         := 0x09.
Definition BLE_GAP_AD_TYPE_TX_POWER_LEVEL              := 0x0A.
Definition BLE_GAP_AD_TYPE_APPEARANCE                  := 0x19.
Definition BLE_GAP_AD_TYPE_MANUFACTURER_SPECIFIC_DATA  := 0xFF.
Definition BLE_GAP_ADV_FLAGS_LE_ONLY_GENERAL_DISC_MODE := Z.lor 0x02 0x04.
Definition BLE_GAP_ADV_TYPE_CONNECTABLE_SCANNABLE_UNDIRECTED := 0x01.
Definition BLE_GAP_ADV_FP_ANY := 0x00.
Definition BLE_GAP_PHY_1MBPS  := 0x01.

(** [ble_uuid_t] *)
Record ble_uuid_t := { uuid : Z; uuid_type : Z }.

(** [ble_gatts_char_handles_t] *)
Record ble_gatts_char_handles_t := {
  value_handle     : Z;
  user_desc_handle : Z;
  cccd_handle      : Z;
  sccd_handle      : Z
}.

(** [ble_gatts_evt_write_t]; [data] is the flexible array member. *)
Record ble_gatts_evt_write_t := {
  handle        : Z;
  write_uuid    : ble_uuid_t;
  op            : Z;
  auth_required : Z;
  offset        : Z;
  len           : Z;
  data          : list Z
}.

(** [ble_evt_t], by the members the firmware reads:
    [header.evt_id], the connection handle that starts both [evt.gap_evt]
    and [evt.gatts_evt], and the event parameters. *)
Record ble_evt_t := {
  evt_id                    : Z;
  conn_handle               : Z;
  adv_set_terminated_reason : Z;
  write                     : ble_gatts_evt_write_t;
  hvn_tx_complete_count     : Z
}.

(** [ble_gatts_hvx_params_t], with the bytes [p_data] points to. *)
Record ble_gatts_hvx_params_t := {
  hvx_handle : Z;
  hvx_type   : Z;
  hvx_offset : Z;
  hvx_len    : Z;
  hvx_data   : list Z
}.

(** [ble_gap_adv_params_t], the members [adv_set_configure] sets; the
    others are zero after the [memset]. *)
Record ble_gap_adv_params_t := {
  properties_type : Z;
  anonymous       : Z;
  interval        : Z;
  duration        : Z;
  filter_policy   : Z;
  primary_phy     : Z;
  secondary_phy   : Z
}.

(** [ble_gap_adv_data_t], with the bytes the two [ble_data_t] point to;
    a [NULL] scan response is [None]. *)
Record ble_gap_adv_data_t := {
  adv_data      : list Z;
  scan_rsp_data : option (list Z)
}.

(** The supervisor calls the modelled code issues. *)
Inductive svc_call :=
| SD_BLE_GATTS_HVX (conn : Z) (params : ble_gatts_hvx_params_t)
| SD_BLE_GAP_ADV_SET_CONFIGURE (adv_handle : Z)
    (params : option ble_gap_adv_params_t) (adv : ble_gap_adv_data_t)
| SD_BLE_GAP_ADV_START (adv_handle : Z) (conn_cfg_tag : Z)
| SD_BLE_GAP_ADV_STOP (adv_handle : Z)
| SD_BLE_GAP_DEVICE_NAME_GET (buffer_len : Z)
| SD_BLE_GAP_APPEARANCE_GET.

(** What the SoftDevice answers to one call: the returned code and what
    it leaves in the output parameters ([None]: not written). *)
Record svc_reply := {
  err_code   : Z;
  out_handle : option Z;
  out_bytes  : list Z;
  out_len    : Z;
  out_u16    : option Z
}.

(** The SoftDevice as the application sees it: the answer it gives to its
    n-th call, and the calls received so far, oldest first. *)
Record softdevice := {
  replies : nat -> svc_reply;
  calls   : list svc_call
}.

Definition svc (sd : softdevice) (c : svc_call) : svc_reply * softdevice :=
  (replies sd (length (calls sd)),
   {| replies := replies sd; calls := calls sd ++ [c] |}).

Definition sd_ble_gatts_hvx (sd : softdevice) (conn : Z)
    (p : ble_gatts_hvx_params_t) : Z * softdevice :=
  let '(r, sd') := svc sd (SD_BLE_GATTS_HVX conn p) in (err_code r, sd').

(** Returns the code and the value of [*p_adv_handle] afterwards. *)
Definition sd_ble_gap_adv_set_configure (sd : softdevice) (adv_handle : Z)
    (params : option ble_gap_adv_params_t) (adv : ble_gap_adv_data_t)
  : Z * Z * softdevice :=
  let '(r, sd') := svc sd (SD_BLE_GAP_ADV_SET_CONFIGURE adv_handle params adv) in
  (err_code r, default adv_handle (out_handle r), sd').


Definition sd_ble_gap_adv_stop (sd : softdevice) (adv_handle : Z)
  : Z * softdevice :=
  let '(r, sd') := svc sd (SD_BLE_GAP_ADV_STOP adv_handle) in
  (err_code r, sd').

(** Returns the code, the contents of the caller's [buffer_len]-byte
    array afterwards and the value of [*p_len] afterwards. *)
Definition sd_ble_gap_device_name_get (sd : softdevice) (buffer_len : Z)
  : Z * list Z * Z * softdevice :=
  let '(r, sd') := svc sd (SD_BLE_GAP_DEVICE_NAME_GET buffer_len) in
  (err_code r,
   take (Z.to_nat buffer_len)
        (out_bytes r ++ repeat 0 (Z.to_nat buffer_len)),
   u16 (out_len r), sd').

(** Returns the code and the value of [*p_appearance] afterwards. *)
Definition sd_ble_gap_appearance_get (sd : softdevice) (appearance : Z)
  : Z * Z * softdevice :=
  let '(r, sd') := svc sd SD_BLE_GAP_APPEARANCE_GET in
  (err_code r, u16 (default appearance (out_u16 r)), sd').

End SoftDevice.

(** ** The IMU GATT service ([ble_imu_service.c]) *)

Module BleImu.

Import SoftDevice.

Definition BLE_IMU_QUAT_SIZE   := 16.
Definition BLE_IMU_ACCEL_SIZE  := 12.
Definition BLE_IMU_GYRO_SIZE   := 12.
Definition BLE_IMU_RATE_SIZE   := 2.
Definition BLE_IMU_STATUS_SIZE := 1.

(** The binary32 encoding of a float and its four bytes in memory
    (little-endian, as on the Cortex-M4). *)
Definition f32_bits (f : spec_float) : Z :=
  match f with
  | S754_zero s => if s then 0x80000000 else 0
  | S754_infinity s => (if s then 0x80000000 else 0) + 0x7F800000
  | S754_nan => 0x7FC00000
  | S754_finite s m e =>
      (if s then 0x80000000 else 0)
      + (if Z.pos m <? 0x800000 then Z.pos m
         else (e + 150) * 0x800000 + (Z.pos m - 0x800000))
  end.

Definition le32_bytes (w : Z) : list Z :=
  [ w mod 256; (w / 256) mod 256; (w / 65536) mod 256;
    (w / 16777216) mod 256 ].

Definition f32_bytes (f : spec_float) : list Z := le32_bytes (f32_bits f).

(** [ble_imu_quat_t] and [ble_imu_vector_t] (packed) *)
Record ble_imu_quat_t := {
  quat_i : spec_float; quat_j : spec_float;
  quat_k : spec_float; quat_real : spec_float
}.

Record ble_imu_vector_t := {
  vec_x : spec_float; vec_y : spec_float; vec_z : spec_float
}.

Definition quat_bytes (q : ble_imu_quat_t) : list Z :=
  f32_bytes (quat_i q) ++ f32_bytes (quat_j q)
    ++ f32_bytes (quat_k q) ++ f32_bytes (quat_real q).

Definition vector_bytes (v : ble_imu_vector_t) : list Z :=
  f32_bytes (vec_x v) ++ f32_bytes (vec_y v) ++ f32_bytes (vec_z v).

(** [ble_imu_evt_type_t] *)
Inductive ble_imu_evt_type_t :=
| BLE_IMU_EVT_CONNECTED
| BLE_IMU_EVT_DISCONNECTED
| BLE_IMU_EVT_QUAT_NOTIFY_EN
| BLE_IMU_EVT_QUAT_NOTIFY_DIS
| BLE_IMU_EVT_ACCEL_NOTIFY_EN
| BLE_IMU_EVT_ACCEL_NOTIFY_DIS
| BLE_IMU_EVT_GYRO_NOTIFY_EN
| BLE_IMU_EVT_GYRO_NOTIFY_DIS
| BLE_IMU_EVT_STATUS_NOTIFY_EN
| BLE_IMU_EVT_STATUS_NOTIFY_DIS
| BLE_IMU_EVT_RATE_WRITE
| BLE_IMU_EVT_TX_COMPLETE.

(** The union [data] of [ble_imu_evt_t]; [evt_no_data] when the code
    leaves it unassigned. *)
Inductive ble_imu_evt_data :=
| evt_no_data
| rate_ms (rate : Z)
| tx_count (count : Z).

(** [ble_imu_evt_t] *)
Record ble_imu_evt_t := {
  evt_type        : ble_imu_evt_type_t;
  evt_conn_handle : Z;
  evt_data        : ble_imu_evt_data
}.

Section Service.

(** The application handler is a C function pointer; what it does is
    the application's business, so it is a function on the state [App]
    the application keeps. *)
Context {App : Type}.

Definition ble_imu_evt_handler_t : Type := ble_imu_evt_t -> App -> App.

(** [ble_imu_service_t] *)
Record ble_imu_service_t := {
  service_handle        : Z;
  svc_conn_handle       : Z;
  quat_handles          : ble_gatts_char_handles_t;
  accel_handles         : ble_gatts_char_handles_t;
  gyro_handles          : ble_gatts_char_handles_t;
  rate_handles          : ble_gatts_char_handles_t;
  status_handles        : ble_gatts_char_handles_t;
  quat_notify_enabled   : bool;
  accel_notify_enabled  : bool;
  gyro_notify_enabled   : bool;
  status_notify_enabled : bool;
  sample_rate_ms        : Z;
  status_flags          : Z;
  evt_handler           : option ble_imu_evt_handler_t;
  svc_uuid_type         : Z
}.

(** The members the event handlers and notify calls assign. *)
Inductive service_member :=
| ConnHandle (h : Z)
| QuatNotify (b : bool)
| AccelNotify (b : bool)
| GyroNotify (b : bool)
| StatusNotify (b : bool)
| SampleRate (r : Z)
| StatusFlags (f : Z).

Definition assign (s : ble_imu_service_t) (m : service_member)
  : ble_imu_service_t :=
  {| service_handle := service_handle s;
     svc_conn_handle :=
       match m with ConnHandle h => h | _ => svc_conn_handle s end;
     quat_handles := quat_handles s;
     accel_handles := accel_handles s;
     gyro_handles := gyro_handles s;
     rate_handles := rate_handles s;
     status_handles := status_handles s;
     quat_notify_enabled :=
       match m with QuatNotify b => b | _ => quat_notify_enabled s end;
     accel_notify_enabled :=
       match m with AccelNotify b => b | _ => accel_notify_enabled s end;
     gyro_notify_enabled :=
       match m with GyroNotify b => b | _ => gyro_notify_enabled s end;
     status_notify_enabled :=
       match m with StatusNotify b => b | _ => status_notify_enabled s end;
     sample_rate_ms :=
       match m with SampleRate r => r | _ => sample_rate_ms s end;
     status_flags :=
       match m with StatusFlags f => f | _ => status_flags s end;
     evt_handler := evt_handler s;
     svc_uuid_type := svc_uuid_type s |}.

(** [if (service->evt_handler != NULL) { ...; service->evt_handler(&evt); }] *)
Definition deliver (s : ble_imu_service_t) (t : ble_imu_evt_type_t)
    (d : ble_imu_evt_data) (app : App) : App :=
  match evt_handler s with
  | Some h =>
      h {| evt_type := t; evt_conn_handle := svc_conn_handle s;
           evt_data := d |} app
  | None => app
  end.

(** One CCCD branch of [on_write]. *)
Definition cccd_write (s : ble_imu_service_t) (p_evt : ble_gatts_evt_write_t)
    (flag : bool -> service_member)
    (en dis : ble_imu_evt_type_t) (app : App)
  : ble_imu_service_t * App :=
  let enabled := negb (Z.land (byte_at (data p_evt) 0) 0x01 =? 0) in
  let s' := assign s (flag enabled) in
  (s', deliver s' (if enabled then en else dis) evt_no_data app).

(** [on_write] *)
Definition on_write (s : ble_imu_service_t) (p_evt : ble_gatts_evt_write_t)
    (app : App) : ble_imu_service_t * App :=
  if (handle p_evt =? cccd_handle (quat_handles s)) && (len p_evt =? 2)
  then cccd_write s p_evt QuatNotify
         BLE_IMU_EVT_QUAT_NOTIFY_EN BLE_IMU_EVT_QUAT_NOTIFY_DIS app
  else if (handle p_evt =? cccd_handle (accel_handles s))
          && (len p_evt =? 2)
  then cccd_write s p_evt AccelNotify
         BLE_IMU_EVT_ACCEL_NOTIFY_EN BLE_IMU_EVT_ACCEL_NOTIFY_DIS app
  else if (handle p_evt =? cccd_handle (gyro_handles s))
          && (len p_evt =? 2)
  then cccd_write s p_evt GyroNotify
         BLE_IMU_EVT_GYRO_NOTIFY_EN BLE_IMU_EVT_GYRO_NOTIFY_DIS app
  else if (handle p_evt =? cccd_handle (status_handles s))
          && (len p_evt =? 2)
  then cccd_write s p_evt StatusNotify
         BLE_IMU_EVT_STATUS_NOTIFY_EN BLE_IMU_EVT_STATUS_NOTIFY_DIS app
  else if (handle p_evt =? value_handle (rate_handles s))
          && (len p_evt =? 2)
  then
    let new_rate :=
      u16 (Z.lor (byte_at (data p_evt) 0)
                 (Z.shiftl (byte_at (data p_evt) 1) 8)) in
    if (new_rate >=? 1) && (new_rate <=? 1000) then
      let s' := assign s (SampleRate new_rate) in
      (s', deliver s' BLE_IMU_EVT_RATE_WRITE (rate_ms new_rate) app)
    else (s, app)
  else (s, app).

(** [notify_send] *)
Definition notify_send (sd : softdevice) (conn value : Z)
    (p_data : list Z) (n : Z) : Z * softdevice :=
  sd_ble_gatts_hvx sd conn
    {| hvx_handle := value; hvx_type := BLE_GATT_HVX_NOTIFICATION;
       hvx_offset := 0; hvx_len := n;
       hvx_data := take (Z.to_nat n) p_data |}.

(** [ble_imu_service_on_ble_evt] *)
Definition ble_imu_service_on_ble_evt (service : option ble_imu_service_t)
    (p_ble_evt : option ble_evt_t) (app : App)
  : option ble_imu_service_t * App :=
  match service, p_ble_evt with
  | Some s, Some e =>
      if evt_id e =? BLE_GAP_EVT_CONNECTED then
        let s := assign s (ConnHandle (conn_handle e)) in
        let s := assign s (QuatNotify false) in
        let s := assign s (AccelNotify false) in
        let s := assign s (GyroNotify false) in
        let s := assign s (StatusNotify false) in
        (Some s, deliver s BLE_IMU_EVT_CONNECTED evt_no_data app)
      else if evt_id e =? BLE_GAP_EVT_DISCONNECTED then
        let app := deliver s BLE_IMU_EVT_DISCONNECTED evt_no_data app in
        let s := assign s (ConnHandle BLE_CONN_HANDLE_INVALID) in
        let s := assign s (QuatNotify false) in
        let s := assign s (AccelNotify false) in
        let s := assign s (GyroNotify false) in
        let s := assign s (StatusNotify false) in
        (Some s, app)
      else if evt_id e =? BLE_GATTS_EVT_WRITE then
        let '(s, app) := on_write s (write e) app in (Some s, app)
      else if evt_id e =? BLE_GATTS_EVT_HVN_TX_COMPLETE then
        (Some s,
         deliver s BLE_IMU_EVT_TX_COMPLETE
           (tx_count (hvn_tx_complete_count e)) app)
      else (Some s, app)
  | _, _ => (service, app)
  end.

(** [ble_imu_notify_quaternion] *)
Definition ble_imu_notify_quaternion (sd : softdevice)
    (service : option ble_imu_service_t) (quat : option ble_imu_quat_t)
  : Z * softdevice :=
  match service, quat with
  | Some s, Some q =>
      if svc_conn_handle s =? BLE_CONN_HANDLE_INVALID
      then (NRF_ERROR_INVALID_STATE, sd)
      else if negb (quat_notify_enabled s) then (NRF_SUCCESS, sd)
      else notify_send sd (svc_conn_handle s)
             (value_handle (quat_handles s)) (quat_bytes q)
             BLE_IMU_QUAT_SIZE
  | _, _ => (NRF_ERROR_INVALID_PARAM, sd)
  end.

(** [ble_imu_notify_accelerometer] *)
Definition ble_imu_notify_accelerometer (sd : softdevice)
    (service : option ble_imu_service_t) (accel : option ble_imu_vector_t)
  : Z * softdevice :=
  match service, accel with
  | Some s, Some v =>
      if svc_conn_handle s =? BLE_CONN_HANDLE_INVALID
      then (NRF_ERROR_INVALID_STATE, sd)
      else if negb (accel_notify_enabled s) then (NRF_SUCCESS, sd)
      else notify_send sd (svc_conn_handle s)
             (value_handle (accel_handles s)) (vector_bytes v)
             BLE_IMU_ACCEL_SIZE
  | _, _ => (NRF_ERROR_INVALID_PARAM, sd)
  end.

(** [ble_imu_notify_gyroscope] *)
Definition ble_imu_notify_gyroscope (sd : softdevice)
    (service : option ble_imu_service_t) (gyro : option ble_imu_vector_t)
  : Z * softdevice :=
  match service, gyro with
  | Some s, Some v =>
      if svc_conn_handle s =? BLE_CONN_HANDLE_INVALID
      then (NRF_ERROR_INVALID_STATE, sd)
      else if negb (gyro_notify_enabled s) then (NRF_SUCCESS, sd)
      else notify_send sd (svc_conn_handle s)
             (value_handle (gyro_handles s)) (vector_bytes v)
             BLE_IMU_GYRO_SIZE
  | _, _ => (NRF_ERROR_INVALID_PARAM, sd)
  end.

(** [ble_imu_notify_status]; also returns the service, whose
    [status_flags] it stores. *)
Definition ble_imu_notify_status (sd : softdevice)
    (service : option ble_imu_service_t) (status : Z)
  : Z * option ble_imu_service_t * softdevice :=
  match service with
  | Some s =>
      if svc_conn_handle s =? BLE_CONN_HANDLE_INVALID
      then (NRF_ERROR_INVALID_STATE, service, sd)
      else
        let s := assign s (StatusFlags status) in
        if negb (status_notify_enabled s) then (NRF_SUCCESS, Some s, sd)
        else
          let '(r, sd') :=
            notify_send sd (svc_conn_handle s)
              (value_handle (status_handles s)) [status]
              BLE_IMU_STATUS_SIZE in
          (r, Some s, sd')
  | None => (NRF_ERROR_INVALID_PARAM, service, sd)
  end.

(** The four notify entry points, by characteristic. *)
Inductive notify_char :=
| NotifyQuaternion (quat : ble_imu_quat_t)
| NotifyAccelerometer (accel : ble_imu_vector_t)
| NotifyGyroscope (gyro : ble_imu_vector_t)
| NotifyStatus (status : Z).

Definition notify_flag (c : notify_char) (s : ble_imu_service_t) : bool :=
  match c with
  | NotifyQuaternion _ => quat_notify_enabled s
  | NotifyAccelerometer _ => accel_notify_enabled s
  | NotifyGyroscope _ => gyro_notify_enabled s
  | NotifyStatus _ => status_notify_enabled s
  end.

Definition ble_imu_notify (sd : softdevice) (s : ble_imu_service_t)
    (c : notify_char) : Z * softdevice :=
  match c with
  | NotifyQuaternion q => ble_imu_notify_quaternion sd (Some s) (Some q)
  | NotifyAccelerometer v =>
      ble_imu_notify_accelerometer sd (Some s) (Some v)
  | NotifyGyroscope v => ble_imu_notify_gyroscope sd (Some s) (Some v)
  | NotifyStatus st =>
      let '(r, _, sd') := ble_imu_notify_status sd (Some s) st in (r, sd')
  end.

(** The attribute handle of the rate value differs from the four CCCD
    handles, as the handles of one attribute table do. *)
Definition rate_handle_distinct (s : ble_imu_service_t) : Prop :=
  let h := value_handle (rate_handles s) in
  h <> cccd_handle (quat_handles s)
  /\ h <> cccd_handle (accel_handles s)
  /\ h <> cccd_handle (gyro_handles s)
  /\ h <> cccd_handle (status_handles s).

End Service.

Arguments ble_imu_service_t : clear implicits.
Arguments ble_imu_evt_handler_t : clear implicits.

End BleImu.

(** ** The advertising module ([ble_advertising.c]) *)

Module BleAdv.

Import SoftDevice.

Definition BLE_ADV_MAX_UUIDS := 4.

(** [ble_adv_mode_t] *)
Inductive ble_adv_mode_t :=
| BLE_ADV_MODE_IDLE
| BLE_ADV_MODE_FAST
| BLE_ADV_MODE_SLOW.

(** [ble_adv_evt_t] *)
Inductive ble_adv_evt_t :=
| BLE_ADV_EVT_STARTED
| BLE_ADV_EVT_STOPPED
| BLE_ADV_EVT_FAST_TIMEOUT
| BLE_ADV_EVT_SLOW_TIMEOUT
| BLE_ADV_EVT_CONNECTED.


(** [ble_advertising_config_t] *)
Record ble_advertising_config_t := {
  fast_interval      : Z;
  slow_interval      : Z;
  fast_timeout       : Z;
  slow_timeout       : Z;
  include_name       : bool;
  include_appearance : bool;
  include_tx_power   : bool;
  uuids              : list ble_uuid_t;   (* ble_uuid_t uuids[4] *)
  uuid_count         : Z;
  include_name_in_sr : bool;
  p_manuf_data       : option (list Z);
  manuf_data_len     : Z;
  company_id         : Z;
  auto_restart       : bool
}.



(** *** Filling an advertising buffer

    A buffer of [BLE_GAP_ADV_SET_DATA_SIZE_MAX] bytes and the [uint8_t]
    fill index.  A store past the end of the array has no defined
    behaviour: the writer then yields [None]. *)
Definition adv_buf : Type := list Z * Z.

(** [p[len++] = b] *)
Definition put (b : Z) (w : adv_buf) : option adv_buf :=
  let '(p, n) := w in
  if n <? BLE_GAP_ADV_SET_DATA_SIZE_MAX
  then Some (<[Z.to_nat n := u8 b]> p, u8 (n + 1))
  else None.

(** [memcpy(&p[len], src, n); len += n] *)
Definition put_bytes (src : list Z) (n : Z) (w : adv_buf) : option adv_buf :=
  let '(p, k) := w in
  if (k + n <=? BLE_GAP_ADV_SET_DATA_SIZE_MAX)
     && (n <=? Z.of_nat (length src))
  then Some (memcpy_at p k src n, u8 (k + n))
  else None.

(** The loop over [m_config.uuids] in [adv_data_build], from index [i]. *)
Fixpoint put_uuids (cfg : ble_advertising_config_t) (i : nat) (todo : nat)
    (w : adv_buf) : option adv_buf :=
  match todo with
  | O => Some w
  | S todo' =>
      match uuids cfg !! i with
      | None => None
      | Some u =>
          w ← (if uuid_type u =? BLE_UUID_TYPE_BLE
               then w ← put (Z.land (uuid u) 0xFF) w;
                    put (Z.shiftr (uuid u) 8) w
               else Some w);
          put_uuids cfg (S i) todo' w
      end
  end.

Section Module_state.

Context {App : Type}.

Definition ble_advertising_evt_handler_t : Type :=
  ble_adv_evt_t -> ble_adv_mode_t -> App -> App.

(** The file-scope variables of [ble_advertising.c].
    [m_adv_data_struct] points into the two buffers, so it is kept as
    its two lengths and whether the scan response pointer is set. *)
Record adv_module := {
  m_adv_data      : list Z;      (* uint8_t m_adv_data[31] *)
  m_scan_rsp_data : list Z;      (* uint8_t m_scan_rsp_data[31] *)
  m_adv_handle    : Z;
  m_initialized   : bool;
  m_adv_mode      : ble_adv_mode_t;
  m_config        : ble_advertising_config_t;
  m_evt_handler   : option ble_advertising_evt_handler_t;
  m_adv_len       : Z;
  m_scan_rsp_set  : bool;
  m_scan_rsp_len  : Z
}.


Definition set_adv_handle (m : adv_module) (h : Z) : adv_module :=
  {| m_adv_data := m_adv_data m; m_scan_rsp_data := m_scan_rsp_data m;
     m_adv_handle := h; m_initialized := m_initialized m;
     m_adv_mode := m_adv_mode m; m_config := m_config m;
     m_evt_handler := m_evt_handler m; m_adv_len := m_adv_len m;
     m_scan_rsp_set := m_scan_rsp_set m;
     m_scan_rsp_len := m_scan_rsp_len m |}.

Definition set_buffers (m : adv_module) (adv : adv_buf) (sr : adv_buf)
  : adv_module :=
  {| m_adv_data := fst adv; m_scan_rsp_data := fst sr;
     m_adv_handle := m_adv_handle m; m_initialized := m_initialized m;
     m_adv_mode := m_adv_mode m; m_config := m_config m;
     m_evt_handler := m_evt_handler m; m_adv_len := snd adv;
     m_scan_rsp_set := snd sr >? 0;
     m_scan_rsp_len := snd sr |}.

(** [m_adv_data_struct] as the SoftDevice reads it. *)
Definition m_adv_data_struct (m : adv_module) : ble_gap_adv_data_t :=
  {| adv_data := take (Z.to_nat (m_adv_len m)) (m_adv_data m);
     scan_rsp_data :=
       if m_scan_rsp_set m
       then Some (take (Z.to_nat (m_scan_rsp_len m)) (m_scan_rsp_data m))
       else None |}.


(** [adv_data_build]; it always returns [NRF_SUCCESS], so the model
    returns the module state and the SoftDevice only. *)
Definition adv_data_build (m : adv_module) (sd : softdevice)
  : option (adv_module * softdevice) :=
  let cfg := m_config m in
  let w : adv_buf := (m_adv_data m, 0) in
  w ← (if snd w + 3 <=? BLE_GAP_ADV_SET_DATA_SIZE_MAX
       then w ← put 2 w; w ← put BLE_GAP_AD_TYPE_FLAGS w;
            put BLE_GAP_ADV_FLAGS_LE_ONLY_GENERAL_DISC_MODE w
       else Some w);
  w ← (if uuid_count cfg >? 0 then
         let uuid_field_len := u8 (1 + uuid_count cfg * 2) in
         if snd w + 1 + uuid_field_len <=? BLE_GAP_ADV_SET_DATA_SIZE_MAX
         then w ← put uuid_field_len w;
              w ← put BLE_GAP_AD_TYPE_16BIT_SERVICE_UUID_COMPLETE w;
              put_uuids cfg 0 (Z.to_nat (uuid_count cfg)) w
         else Some w
       else Some w);
  w ← (if include_tx_power cfg then
         if snd w + 3 <=? BLE_GAP_ADV_SET_DATA_SIZE_MAX
         then w ← put 2 w; w ← put BLE_GAP_AD_TYPE_TX_POWER_LEVEL w;
              put 0 w
         else Some w
       else Some w);
  '(w, sd) ← (if include_appearance cfg then
         let '(_, appearance, sd) :=
           sd_ble_gap_appearance_get sd BLE_APPEARANCE_GENERIC_TAG in
         if snd w + 4 <=? BLE_GAP_ADV_SET_DATA_SIZE_MAX
         then w ← put 3 w; w ← put BLE_GAP_AD_TYPE_APPEARANCE w;
              w ← put (Z.land appearance 0xFF) w;
              w ← put (Z.shiftr appearance 8) w;
              Some (w, sd)
         else Some (w, sd)
       else Some (w, sd));
  w ← (match p_manuf_data cfg with
       | Some bytes =>
           if manuf_data_len cfg >? 0 then
             let manuf_field_len := u8 (2 + manuf_data_len cfg) in
             if snd w + 1 + manuf_field_len
                <=? BLE_GAP_ADV_SET_DATA_SIZE_MAX
             then w ← put (manuf_field_len + 1) w;
                  w ← put BLE_GAP_AD_TYPE_MANUFACTURER_SPECIFIC_DATA w;
                  w ← put (Z.land (company_id cfg) 0xFF) w;
                  w ← put (Z.shiftr (company_id cfg) 8) w;
                  put_bytes bytes (manuf_data_len cfg) w
             else Some w
           else Some w
       | None => Some w
       end);
  let sr : adv_buf := (m_scan_rsp_data m, 0) in
  '(w, sr, sd) ←
    (if include_name cfg then
       let '(r, name, name_len, sd) :=
         sd_ble_gap_device_name_get sd BLE_STACK_DEVICE_NAME_MAX_LEN in
       if (r =? NRF_SUCCESS) && (name_len >? 0) then
         if snd w + 2 + name_len <=? BLE_GAP_ADV_SET_DATA_SIZE_MAX
         then w ← put (name_len + 1) w;
              w ← put BLE_GAP_AD_TYPE_COMPLETE_LOCAL_NAME w;
              w ← put_bytes name name_len w;
              Some (w, sr, sd)
         else
           let available :=
             u8 (BLE_GAP_ADV_SET_DATA_SIZE_MAX - snd w - 2) in
           if available >? 0
           then w ← put (available + 1) w;
                w ← put BLE_GAP_AD_TYPE_SHORT_LOCAL_NAME w;
                w ← put_bytes name available w;
                Some (w, sr, sd)
           else Some (w, sr, sd)
       else Some (w, sr, sd)
     else if include_name_in_sr cfg then
       let '(r, name, name_len, sd) :=
         sd_ble_gap_device_name_get sd BLE_STACK_DEVICE_NAME_MAX_LEN in
       if (r =? NRF_SUCCESS) && (name_len >? 0) then
         if snd sr + 2 + name_len <=? BLE_GAP_ADV_SET_DATA_SIZE_MAX
         then sr ← put (name_len + 1) sr;
              sr ← put BLE_GAP_AD_TYPE_COMPLETE_LOCAL_NAME sr;
              sr ← put_bytes name name_len sr;
              Some (w, sr, sd)
         else Some (w, sr, sd)
       else Some (w, sr, sd)
     else Some (w, sr, sd));
  Some (set_buffers m w sr, sd).

(** [adv_set_configure] *)
Definition adv_set_configure (m : adv_module) (sd : softdevice)
    (mode : ble_adv_mode_t) : option (Z * adv_module * softdevice) :=
  let cfg := m_config m in
  let params (i d : Z) :=
    {| properties_type :=
         BLE_GAP_ADV_TYPE_CONNECTABLE_SCANNABLE_UNDIRECTED;
       anonymous := 0; interval := i; duration := d;
       filter_policy := BLE_GAP_ADV_FP_ANY;
       primary_phy := BLE_GAP_PHY_1MBPS;
       secondary_phy := BLE_GAP_PHY_1MBPS |} in
  let configure (p : ble_gap_adv_params_t) :=
    '(m, sd) ← adv_data_build m sd;
    let '(err_code, h, sd) :=
      sd_ble_gap_adv_set_configure sd (m_adv_handle m) (Some p)
        (m_adv_data_struct m) in
    Some (err_code, set_adv_handle m h, sd) in
  match mode with
  | BLE_ADV_MODE_FAST =>
      configure (params (fast_interval cfg) (fast_timeout cfg))
  | BLE_ADV_MODE_SLOW =>
      configure (params (slow_interval cfg) (slow_timeout cfg))
  | BLE_ADV_MODE_IDLE => Some (NRF_ERROR_INVALID_PARAM, m, sd)
  end.



(** What building the payload and configuring the set leave alone. *)
Definition same_policy (m m' : adv_module) : Prop :=
  m_adv_mode m' = m_adv_mode m
  /\ m_evt_handler m' = m_evt_handler m
  /\ m_config m' = m_config m
  /\ m_initialized m' = m_initialized m.

End Module_state.

Arguments adv_module : clear implicits.
Arguments ble_advertising_evt_handler_t : clear implicits.

End BleAdv.

(** ** Concrete handles, peripherals and events *)

Module Examples.

Import Twim Bno085 SoftDevice BleImu BleAdv.

(** A handle after [bno085_init]: counters at 0, empty receive buffer. *)
Definition dev0 : bno085_t :=
  {| i2c_addr := 0x4A; int_pin := -1; rst_pin := -1; initialized := true;
     sequence := [0; 0; 0; 0; 0; 0];
     sw_version_major := 0; sw_version_minor := 0; sw_version_patch := 0;
     sw_part_number := 0; sw_build_number := 0;
     rx_buffer := repeat 0 512; rx_len := 0; enabled_reports := 0 |}.

(** A handle that holds a received packet. *)
Definition dev_holding (packet : list Z) : bno085_t :=
  set_rx dev0 (packet ++ repeat 0 (512 - length packet))
    (Z.of_nat (length packet)).

(** A bus whose next write transfer completes with [n] bytes sent, and
    one whose next write transfer fails with an address NACK. *)
Definition bus_write_ok (n : Z) : twim_t :=
  {| Twim.initialized := true; tx_replies := [n]; rx_replies := [];
     tx_frames := [] |}.
Definition bus_write_nack : twim_t :=
  {| Twim.initialized := true; tx_replies := [TWIM_ERR_ANACK];
     rx_replies := []; tx_frames := [] |}.

(** A bus on which the next read transfer delivers [bytes]. *)
Definition bus_read (bytes : list Z) : twim_t :=
  {| Twim.initialized := true; tx_replies := [];
     rx_replies := [(Z.of_nat (length bytes), bytes)]; tx_frames := [] |}.

(** A rotation-vector report on the input-reports channel with the Q14
    fields i = 8192, j = 0, k = 0, real = 8192 and no accuracy field. *)
Definition rotation_report : list Z :=
  [ 18; 0; 3; 0;                  (* header: 18 bytes, channel 3 *)
    0x05; 0; 3; 0; 0;             (* report id, sub-header *)
    0x00; 0x20; 0; 0; 0; 0; 0x00; 0x20; 0 ].


(** A pressure report, which the decoder has no case for. *)
Definition pressure_report : list Z :=
  [ 13; 0; 3; 0;  0x0A; 0; 3; 0; 0;  1; 2; 3; 4 ].

Definition zero_quaternion : bno085_quaternion_t :=
  {| q_i := f32_zero; q_j := f32_zero; q_k := f32_zero;
     q_real := f32_zero; q_accuracy_rad := f32_zero; q_status := 0 |}.
Definition zero_vector : bno085_vector_t :=
  {| v_x := f32_zero; v_y := f32_zero; v_z := f32_zero; v_accuracy := 0 |}.
Definition data0 : bno085_data_t :=
  {| rotation_vector := zero_quaternion; game_rotation := zero_quaternion;
     accelerometer := zero_vector; gyroscope := zero_vector;
     magnetometer := zero_vector; linear_accel := zero_vector;
     gravity := zero_vector; step_count := 0; stability := 0;
     timestamp_us := 0; report_id := 0 |}.


Definition sd_accepting : softdevice :=
  {| replies := fun _ =>
       {| err_code := NRF_SUCCESS; out_handle := Some 0;
          out_bytes := [73; 77; 85]; out_len := 3; out_u16 := None |};
     calls := [] |}.

(** An application that records the service events it is told. *)
Definition imu_log : Type := list ble_imu_evt_t.
Definition imu_recorder : ble_imu_evt_handler_t imu_log :=
  fun evt log => log ++ [evt].

Definition handles (first : Z) : ble_gatts_char_handles_t :=
  {| value_handle := first; user_desc_handle := 0;
     cccd_handle := first + 1; sccd_handle := 0 |}.

(** The service with the handles of a freshly filled attribute table,
    a connection handle and the four notify flags all set to [flags]. *)
Definition service_with (conn : Z) (flags : bool) : ble_imu_service_t imu_log :=
  {| service_handle := 12; svc_conn_handle := conn;
     quat_handles := handles 14; accel_handles := handles 17;
     gyro_handles := handles 20; rate_handles := handles 23;
     status_handles := handles 25;
     quat_notify_enabled := flags; accel_notify_enabled := flags;
     gyro_notify_enabled := flags; status_notify_enabled := flags;
     sample_rate_ms := 10; status_flags := 0;
     evt_handler := Some imu_recorder; svc_uuid_type := 2 |}.

Definition unit_quat : ble_imu_quat_t :=
  {| quat_i := f32_zero; quat_j := f32_zero; quat_k := f32_zero;
     quat_real := f32_of_int 1 |}.
Definition gravity_axes : ble_imu_vector_t :=
  {| vec_x := f32_zero; vec_y := f32_zero; vec_z := f32_of_int 10 |}.

(** One call of each notify entry point. *)
Definition all_notifications : list notify_char :=
  [ NotifyQuaternion unit_quat; NotifyAccelerometer gravity_axes;
    NotifyGyroscope gravity_axes; NotifyStatus 1 ].

Definition no_write : ble_gatts_evt_write_t :=
  {| handle := 0; write_uuid := {| uuid := 0; uuid_type := 0 |}; op := 0;
     auth_required := 0; offset := 0; len := 0; data := [] |}.

Definition gap_evt (id conn reason : Z) : ble_evt_t :=
  {| evt_id := id; conn_handle := conn;
     adv_set_terminated_reason := reason; write := no_write;
     hvn_tx_complete_count := 0 |}.

(** A write of [bytes] to attribute [h] on connection 0. *)
Definition write_evt (h : Z) (bytes : list Z) : ble_evt_t :=
  {| evt_id := BLE_GATTS_EVT_WRITE; conn_handle := 0;
     adv_set_terminated_reason := 0;
     write := {| handle := h; write_uuid := {| uuid := 4; uuid_type := 2 |};
                 op := 1; auth_required := 0; offset := 0;
                 len := Z.of_nat (length bytes); data := bytes |};
     hvn_tx_complete_count := 0 |}.




End Examples.

(** ** The BNO085 driver above the codec ([bno085.c]) *)

Module Bno085Driver.

Import Twim Bno085.

Definition SH2_CMD_SET_FEATURE     := 0xFD.
Definition SH2_CMD_PRODUCT_ID_REQ  := 0xF9.
Definition SH2_CMD_PRODUCT_ID_RESP := 0xF8.
Definition SH2_EXEC_RESET          := 0x01.
Definition SH2_RESET_COMPLETE      := 0x01.

(** [shtp_product_id_t] *)
Record shtp_product_id_t := {
  pid_reset_cause      : Z;
  pid_sw_version_major : Z;
  pid_sw_version_minor : Z;
  pid_sw_part_number   : Z;
  pid_sw_build_number  : Z;
  pid_sw_version_patch : Z
}.

Definition set_enabled_reports (dev : bno085_t) (bits : Z) : bno085_t :=
  {| i2c_addr := i2c_addr dev; int_pin := int_pin dev;
     rst_pin := rst_pin dev; initialized := initialized dev;
     sequence := sequence dev;
     sw_version_major := sw_version_major dev;
     sw_version_minor := sw_version_minor dev;
     sw_version_patch := sw_version_patch dev;
     sw_part_number := sw_part_number dev;
     sw_build_number := sw_build_number dev;
     rx_buffer := rx_buffer dev; rx_len := rx_len dev;
     enabled_reports := bits |}.

(** [memset(dev, 0, sizeof(bno085_t))] *)
Definition zeroed : bno085_t :=
  {| i2c_addr := 0; int_pin := 0; rst_pin := 0; initialized := false;
     sequence := repeat 0 6;
     sw_version_major := 0; sw_version_minor := 0; sw_version_patch := 0;
     sw_part_number := 0; sw_build_number := 0;
     rx_buffer := repeat 0 512; rx_len := 0; enabled_reports := 0 |}.

(** [b0 | (b1 << 8) | (b2 << 16) | (b3 << 24)] stored in a [uint32_t]. *)
Definition le_uint32 (b0 b1 b2 b3 : Z) : Z :=
  u32 (Z.lor (Z.lor (Z.lor b0 (Z.shiftl b1 8)) (Z.shiftl b2 16))
             (Z.shiftl b3 24)).

(** [bno085_deinit] *)
Definition bno085_deinit (dev : option bno085_t) : option bno085_t :=
  match dev with
  | Some _ => Some zeroed
  | None => None
  end.

(** [bno085_reset].  The results of the driver functions carry the handle
    as it is afterwards; they are [None] where [bno085_send_packet] is. *)
Definition bno085_reset (tw : twim_t) (dev : option bno085_t)
    (tx_buffer : list Z) : option (Z * option bno085_t * twim_t) :=
  match dev with
  | None => Some (BNO085_ERR_INVALID_PARAM, None, tw)
  | Some d =>
      '(result, d, tw) ←
        bno085_send_packet tw d tx_buffer SHTP_CHANNEL_EXECUTABLE
          (Some [SH2_EXEC_RESET]) 1;
      Some (result, Some d, tw)
  end.

(** The 17 bytes [bno085_enable_report] builds in [cmd]. *)
Definition set_feature_cmd (report_type interval_us : Z) : list Z :=
  [ SH2_CMD_SET_FEATURE; u8 report_type; 0; 0;
    Z.land (Z.shiftr interval_us 0) 0xFF;
    Z.land (Z.shiftr interval_us 8) 0xFF;
    Z.land (Z.shiftr interval_us 16) 0xFF;
    Z.land (Z.shiftr interval_us 24) 0xFF;
    0; 0; 0; 0; 0; 0; 0; 0; 0 ].

(** [1UL << report_type] on the 32-bit [unsigned long] of the target; a
    shift by 32 or more has no defined result. *)
Definition report_bit (report_type : Z) : option Z :=
  if (0 <=? report_type) && (report_type <? 32)
  then Some (Z.shiftl 1 report_type) else None.

(** [bno085_enable_report] *)
Definition bno085_enable_report (tw : twim_t) (dev : option bno085_t)
    (tx_buffer : list Z) (report_type interval_us : Z)
  : option (Z * option bno085_t * twim_t) :=
  match dev with
  | None => Some (BNO085_ERR_INVALID_PARAM, None, tw)
  | Some d =>
      if negb (initialized d) then Some (BNO085_ERR_INVALID_PARAM, dev, tw)
      else
        '(result, d, tw) ←
          bno085_send_packet tw d tx_buffer SHTP_CHANNEL_CONTROL
            (Some (set_feature_cmd report_type interval_us)) 17;
        if result =? BNO085_OK then
          bit ← report_bit report_type;
          Some (result,
                Some (set_enabled_reports d
                        (u32 (Z.lor (enabled_reports d) bit))), tw)
        else Some (result, Some d, tw)
  end.

(** [bno085_disable_report]; the second automatic [tx_buffer] does not
    exist, the one call of [bno085_send_packet] uses [tx_buffer]. *)
Definition bno085_disable_report (tw : twim_t) (dev : option bno085_t)
    (tx_buffer : list Z) (report_type : Z)
  : option (Z * option bno085_t * twim_t) :=
  '(result, dev, tw) ← bno085_enable_report tw dev tx_buffer report_type 0;
  if result =? BNO085_OK then
    match dev with
    | Some d =>
        bit ← report_bit report_type;
        Some (result,
              Some (set_enabled_reports d
                      (Z.land (enabled_reports d)
                              (u32 (Z.lnot bit)))), tw)
    | None => None
    end
  else Some (result, dev, tw).

(** [bno085_poll].  [data] is the caller's pointer; [cache] is the static
    [s_sensor_data] the decoder writes when [data] is [NULL].  Returns the
    result, the handle, the bus, [*data] and the cache afterwards. *)
Definition bno085_poll (tw : twim_t) (dev : option bno085_t)
    (header : list Z) (data : option bno085_data_t) (cache : bno085_data_t)
  : Z * option bno085_t * twim_t * option bno085_data_t * bno085_data_t :=
  match dev with
  | None => (BNO085_ERR_INVALID_PARAM, dev, tw, data, cache)
  | Some d =>
      if negb (initialized d)
      then (BNO085_ERR_INVALID_PARAM, dev, tw, data, cache)
      else
        let '(result, d, tw) := bno085_receive_packet tw d header 0 in
        if result <=? 0 then (result, Some d, tw, data, cache)
        else
          match data with
          | Some user =>
              let '(r, user) := bno085_parse_sensor_report d user in
              (r, Some d, tw, Some user, cache)
          | None =>
              let '(r, cache) := bno085_parse_sensor_report d cache in
              (r, Some d, tw, None, cache)
          end
  end.

(** [bno085_get_all_data]: the result and [*data] afterwards. *)
Definition bno085_get_all_data (dev : option bno085_t)
    (data : option bno085_data_t) (cache : bno085_data_t)
  : Z * option bno085_data_t :=
  match dev, data with
  | Some _, Some _ => (BNO085_OK, Some cache)
  | _, _ => (BNO085_ERR_INVALID_PARAM, data)
  end.

(** The loop of [bno085_wait_for_advertisement], entered with [elapsed].
    [stack k] is what the automatic [header] of the receive call holds on
    entry when [k] more iterations are allowed.  [board_delay_ms] only lets
    time pass and is left out.  [None]: the iterations allowed by [fuel]
    are used up. *)
Fixpoint wait_for_advertisement_loop (fuel : nat) (tw : twim_t)
    (dev : bno085_t) (stack : nat -> list Z)
    (advertisement timeout_ms elapsed : Z)
  : option (Z * bno085_t * twim_t) :=
  match fuel with
  | O => None
  | S fuel' =>
      if elapsed <? timeout_ms then
        let '(result, dev, tw) :=
          bno085_receive_packet tw dev (stack fuel') 100 in
        if (result >? SHTP_HEADER_SIZE)
           && (byte_at (rx_buffer dev) 2 =? SHTP_CHANNEL_COMMAND)
           && (byte_at (rx_buffer dev) 4 =? advertisement)
        then Some (BNO085_OK, dev, tw)
        else
          wait_for_advertisement_loop fuel' tw dev stack advertisement
            timeout_ms (u32 (elapsed + 10))
      else Some (BNO085_ERR_TIMEOUT, dev, tw)
  end.

(** [bno085_wait_for_advertisement] *)
Definition bno085_wait_for_advertisement (fuel : nat) (tw : twim_t)
    (dev : bno085_t) (stack : nat -> list Z) (advertisement timeout_ms : Z)
  : option (Z * bno085_t * twim_t) :=
  wait_for_advertisement_loop fuel tw dev stack advertisement timeout_ms 0.

(** The fields [bno085_get_product_id] reads from a response in
    [rx_buffer]; [data] is [&dev->rx_buffer[4]]. *)
Definition product_id_of (dev : bno085_t) : shtp_product_id_t :=
  let data := fun i => byte_at (rx_buffer dev) (4 + i) in
  {| pid_reset_cause := data 1;
     pid_sw_version_major := data 2;
     pid_sw_version_minor := data 3;
     pid_sw_part_number := le_uint32 (data 4) (data 5) (data 6) (data 7);
     pid_sw_build_number := le_uint32 (data 8) (data 9) (data 10) (data 11);
     pid_sw_version_patch := u16 (Z.lor (data 12) (Z.shiftl (data 13) 8)) |}.

(** The [while (attempts-- > 0)] loop of [bno085_get_product_id]. *)
Fixpoint product_id_loop (attempts : nat) (tw : twim_t) (dev : bno085_t)
    (stack : nat -> list Z) (product_id : shtp_product_id_t)
  : Z * bno085_t * twim_t * shtp_product_id_t :=
  match attempts with
  | O => (BNO085_ERR_TIMEOUT, dev, tw, product_id)
  | S attempts' =>
      let '(result, dev, tw) :=
        bno085_receive_packet tw dev (stack attempts') 100 in
      if result <=? SHTP_HEADER_SIZE
      then product_id_loop attempts' tw dev stack product_id
      else if (byte_at (rx_buffer dev) 2 =? SHTP_CHANNEL_CONTROL)
              && (byte_at (rx_buffer dev) 4 =? SH2_CMD_PRODUCT_ID_RESP)
      then (BNO085_OK, dev, tw, product_id_of dev)
      else product_id_loop attempts' tw dev stack product_id
  end.

(** [bno085_get_product_id]; [product_id] is [*product_id] on entry. *)
Definition bno085_get_product_id (tw : twim_t) (dev : option bno085_t)
    (tx_buffer : list Z) (stack : nat -> list Z)
    (product_id : option shtp_product_id_t)
  : option (Z * option bno085_t * twim_t * option shtp_product_id_t) :=
  match dev, product_id with
  | Some d, Some pid =>
      '(result, d, tw) ←
        bno085_send_packet tw d tx_buffer SHTP_CHANNEL_CONTROL
          (Some [SH2_CMD_PRODUCT_ID_REQ; 0]) 2;
      if negb (result =? BNO085_OK)
      then Some (result, Some d, tw, product_id)
      else
        let '(r, d, tw, pid) := product_id_loop 10 tw d stack pid in
        Some (r, Some d, tw, Some pid)
  | _, _ => Some (BNO085_ERR_INVALID_PARAM, dev, tw, product_id)
  end.

(** The polling loop shared by [bno085_get_rotation_vector],
    [bno085_get_accelerometer] and [bno085_get_gyroscope]: [wanted] tells
    the report ids that end it, [data] is the automatic [bno085_data_t],
    indeterminate at first.  Returns the result, the handle, the bus, the
    automatic [data], the cache and whether a wanted report ended it. *)
Fixpoint poll_until (attempts : nat) (wanted : Z -> bool) (tw : twim_t)
    (dev : option bno085_t) (stack : nat -> list Z) (data : bno085_data_t)
    (cache : bno085_data_t)
  : Z * option bno085_t * twim_t * bno085_data_t * bno085_data_t * bool :=
  match attempts with
  | O => (BNO085_ERR_TIMEOUT, dev, tw, data, cache, false)
  | S attempts' =>
      let '(result, dev, tw, user, cache) :=
        bno085_poll tw dev (stack attempts') (Some data) cache in
      let data := default data user in
      if result <? 0 then (result, dev, tw, data, cache, false)
      else if wanted result then (result, dev, tw, data, cache, true)
      else poll_until attempts' wanted tw dev stack data cache
  end.

(** [bno085_get_rotation_vector]: the result, the handle, the bus,
    [*quat] and the cache afterwards. *)
Definition bno085_get_rotation_vector (tw : twim_t) (dev : option bno085_t)
    (stack : nat -> list Z) (data : bno085_data_t) (cache : bno085_data_t)
    (quat : option bno085_quaternion_t)
  : Z * option bno085_t * twim_t * option bno085_quaternion_t
    * bno085_data_t :=
  match dev, quat with
  | Some _, Some _ =>
      let '(report, dev, tw, data, cache, found) :=
        poll_until 10
          (fun r => (r =? SH2_ROTATION_VECTOR)
                    || (r =? SH2_GAME_ROTATION_VECTOR))
          tw dev stack data cache in
      if found then
        if report =? SH2_GAME_ROTATION_VECTOR
        then (BNO085_OK, dev, tw, Some (game_rotation data), cache)
        else (BNO085_OK, dev, tw, Some (rotation_vector data), cache)
      else (report, dev, tw, quat, cache)
  | _, _ => (BNO085_ERR_INVALID_PARAM, dev, tw, quat, cache)
  end.

(** [bno085_get_accelerometer] *)
Definition bno085_get_accelerometer (tw : twim_t) (dev : option bno085_t)
    (stack : nat -> list Z) (data : bno085_data_t) (cache : bno085_data_t)
    (accel : option bno085_vector_t)
  : Z * option bno085_t * twim_t * option bno085_vector_t
    * bno085_data_t :=
  match dev, accel with
  | Some _, Some _ =>
      let '(report, dev, tw, data, cache, found) :=
        poll_until 10 (fun r => r =? SH2_ACCELEROMETER)
          tw dev stack data cache in
      if found then (BNO085_OK, dev, tw, Some (accelerometer data), cache)
      else (report, dev, tw, accel, cache)
  | _, _ => (BNO085_ERR_INVALID_PARAM, dev, tw, accel, cache)
  end.

(** [bno085_get_gyroscope] *)
Definition bno085_get_gyroscope (tw : twim_t) (dev : option bno085_t)
    (stack : nat -> list Z) (data : bno085_data_t) (cache : bno085_data_t)
    (gyro : option bno085_vector_t)
  : Z * option bno085_t * twim_t * option bno085_vector_t
    * bno085_data_t :=
  match dev, gyro with
  | Some _, Some _ =>
      let '(report, dev, tw, data, cache, found) :=
        poll_until 10 (fun r => r =? SH2_GYROSCOPE)
          tw dev stack data cache in
      if found then (BNO085_OK, dev, tw, Some (gyroscope data), cache)
      else (report, dev, tw, gyro, cache)
  | _, _ => (BNO085_ERR_INVALID_PARAM, dev, tw, gyro, cache)
  end.

End Bno085Driver.

(** ** Buses, packets and events for the driver and the application *)

Module Scenarios.

Import Twim Bno085 SoftDevice BleImu BleAdv Examples Bno085Driver.

(** A bus that answers the coming write transfers with [tx] and the coming
    read transfers with [rx]. *)
Definition bus (tx : list Z) (rx : list (Z * list Z)) : twim_t :=
  {| Twim.initialized := true; tx_replies := tx; rx_replies := rx;
     tx_frames := [] |}.

(** The two read transfers that deliver [frame]: header, then the rest. *)
Definition served (frame : list Z) : list (Z * list Z) :=
  [ (4, take 4 frame); (Z.of_nat (length frame) - 4, drop 4 frame) ].

(** A Product ID Response: reset cause 1, version 3.2, part number
    10003608 (0x0098A498), build 370 and patch level 7. *)
Definition product_id_response : list Z :=
  [ 20; 0; 2; 0;
    0xF8; 1; 3; 2;  0x98; 0xA4; 0x98; 0x00;  0x72; 0x01; 0; 0;  7; 0;
    0; 0 ].

(** The reset-complete advertisement on the command channel. *)
Definition reset_advertisement : list Z := [ 5; 0; 0; 0; 0x01 ].

Definition no_product_id : shtp_product_id_t :=
  {| pid_reset_cause := 0; pid_sw_version_major := 0;
     pid_sw_version_minor := 0; pid_sw_part_number := 0;
     pid_sw_build_number := 0; pid_sw_version_patch := 0 |}.

(** Automatic arrays that hold zeros on entry. *)
Definition zero_stack : nat -> list Z := fun _ => repeat 0 4.

End Scenarios.

(** * Properties *)

Import Twim Bno085 SoftDevice BleImu BleAdv Examples.

(** ** Buffers and bit arithmetic *)

Lemma memcpy_at_spec (buf src : list Z) (off n : Z) :
  0 <= off -> 0 <= n ->
  (Z.to_nat n <= length src)%nat ->
  (Z.to_nat off + Z.to_nat n <= length buf)%nat ->
  memcpy_at buf off src n =
    take (Z.to_nat off) buf ++ take (Z.to_nat n) src
      ++ drop (Z.to_nat off + Z.to_nat n) buf.
Proof.
  intros Hoff Hn Hsrc Hbuf. unfold memcpy_at.
  set (o := Z.to_nat off) in *. set (k := Z.to_nat n) in *.
  rewrite <- (take_drop o buf) at 1.
  assert (Ho : length (take o buf) = o) by (rewrite length_take; lia).
  replace o with (length (take o buf) + 0)%nat at 1 by lia.
  rewrite list_inserts_app_r. f_equal.
  rewrite <- (take_drop k (drop o buf)) at 1.
  rewrite list_inserts_0_r.
  - rewrite drop_drop. reflexivity.
  - rewrite !length_take, length_drop. lia.
Qed.

(** [lo | (hi << 8)] adds when [lo] is a byte. *)
Lemma lor_shiftl_byte (lo hi : Z) :
  0 <= lo < 256 -> 0 <= hi ->
  Z.lor lo (Z.shiftl hi 8) = lo + 256 * hi.
Proof.
  intros Hlo Hhi.
  rewrite Z.shiftl_mul_pow2 by lia.
  change (2 ^ 8) with 256.
  rewrite <- Z.lxor_lor, <- Z.add_nocarry_lxor; try lia.
  all: apply Z.bits_inj'; intros n Hn; rewrite Z.land_spec, Z.bits_0.
  all: destruct (Z.lt_ge_cases n 8) as [Hlt | Hge].
  all: try (replace (hi * 256) with (Z.shiftl hi 8)
              by (rewrite Z.shiftl_mul_pow2; lia);
            rewrite (Z.shiftl_spec_low hi 8 n) by lia;
            apply andb_false_r).
  all: replace (Z.testbit lo n) with false; [reflexivity|].
  all: symmetry; destruct (Z.eq_dec lo 0) as [-> | Hne];
       [apply Z.bits_0 | apply Z.bits_above_log2; [lia|]].
  all: assert (Z.log2 lo < 8) by (apply Z.log2_lt_pow2; lia); lia.
Qed.

Lemma land_7F (b : Z) : Z.land b 0x7F = b mod 128.
Proof. change 0x7F with (Z.ones 7). rewrite Z.land_ones by lia. reflexivity. Qed.

Lemma land_FF (b : Z) : Z.land b 0xFF = b mod 256.
Proof. change 0xFF with (Z.ones 8). rewrite Z.land_ones by lia. reflexivity. Qed.

(** The 15-bit length two header bytes announce, in arithmetic. *)
Lemma header_length (b0 b1 : Z) :
  0 <= b0 < 256 -> 0 <= b1 < 256 ->
  u16 (Z.lor b0 (Z.shiftl (Z.land b1 0x7F) 8)) = b0 + 256 * (b1 mod 128).
Proof.
  intros H0 H1. rewrite land_7F.
  assert (0 <= b1 mod 128 < 128) by (apply Z.mod_pos_bound; lia).
  rewrite lor_shiftl_byte by lia.
  unfold u16. apply Z.mod_small. lia.
Qed.

Lemma s16_range (z : Z) : -32768 <= s16 z <= 32767.
Proof.
  unfold s16, u16.
  pose proof (Z.mod_pos_bound z 65536 ltac:(lia)).
  destruct (z mod 65536 <? 32768) eqn:E; lia.
Qed.

Lemma le_int16_range (lo hi : Z) : -32768 <= le_int16 lo hi <= 32767.
Proof. apply s16_range. Qed.

(** ** SHTP packet codec *)

(** The bytes [bno085_send_packet] hands to the bus for a payload that fits. *)
Lemma send_packet_frame tw dev tx_buffer channel payload seq :
  Twim.initialized tw = true ->
  length tx_buffer = 256%nat ->
  sequence dev !! Z.to_nat channel = Some seq ->
  Z.of_nat (length payload) <= 252 ->
  exists ret tw',
    bno085_send_packet tw dev tx_buffer channel (Some payload)
      (Z.of_nat (length payload))
    = Some (ret,
            set_sequence dev
              (<[Z.to_nat channel := u8 (seq + 1)]> (sequence dev)),
            tw')
    /\ tx_frames tw'
       = tx_frames tw ++ [(i2c_addr dev, shtp_frame channel seq payload)].
Proof.
  intros Hinit Htx Hseq Hlen.
  set (n := length payload) in *.
  unfold bno085_send_packet.
  assert (Hpl : u16 (Z.of_nat n + SHTP_HEADER_SIZE) = Z.of_nat n + 4).
  { unfold u16, SHTP_HEADER_SIZE. apply Z.mod_small. lia. }
  rewrite Hpl.
  destruct (Z.of_nat n + 4 >? TX_BUFFER_SIZE) eqn:Hgt.
  { unfold TX_BUFFER_SIZE in Hgt. lia. }
  rewrite Hseq.
  do 4 (destruct tx_buffer as [|? tx_buffer]; [discriminate Htx|]).
  cbn [list_insert insert].
  assert (Hrest : length tx_buffer = 252%nat) by (cbn in Htx; lia).
  assert (Hcopy :
    (if Z.of_nat n >? 0
     then if (4 + Z.of_nat n <=? TX_BUFFER_SIZE) && (Z.of_nat n <=? Z.of_nat (length payload))
          then Some (memcpy_at (Z.land (Z.of_nat n + 4) 255
                       :: Z.land (Z.shiftr (Z.of_nat n + 4) 8) 127
                       :: channel :: seq :: tx_buffer) 4 payload (Z.of_nat n))
          else None
     else Some (Z.land (Z.of_nat n + 4) 255
                :: Z.land (Z.shiftr (Z.of_nat n + 4) 8) 127
                :: channel :: seq :: tx_buffer))
    = Some (shtp_frame channel seq payload ++ drop n tx_buffer)).
  { assert (Hhdr : Z.land (Z.of_nat n + 4) 255 = (Z.of_nat n + 4) mod 256)
      by apply land_FF.
    assert (Hhdr1 : Z.land (Z.shiftr (Z.of_nat n + 4) 8) 127
                    = ((Z.of_nat n + 4) / 256) mod 128).
    { rewrite land_7F, Z.shiftr_div_pow2 by lia. reflexivity. }
    rewrite Hhdr, Hhdr1. unfold shtp_frame. fold n.
    destruct (Z.of_nat n >? 0) eqn:Hpos.
    - replace (4 + Z.of_nat n <=? TX_BUFFER_SIZE) with true
        by (symmetry; unfold TX_BUFFER_SIZE; lia).
      replace (Z.of_nat n <=? Z.of_nat (length payload)) with true
        by (symmetry; fold n; lia).
      cbn [andb]. f_equal.
      rewrite memcpy_at_spec; cbn [length]; try lia.
      replace (Z.to_nat 4) with 4%nat by reflexivity.
      rewrite Nat2Z.id. cbn [take drop Nat.add app].
      rewrite Z.leb_refl. subst n. rewrite firstn_all. reflexivity.
    - assert (n = 0%nat) by lia.
      destruct payload; [|cbn in *; lia]. subst n. reflexivity. }
  rewrite Hcopy.
  unfold twim_write. rewrite Hinit. cbn [negb].
  replace (Z.of_nat n + 4 =? 0) with false by (symmetry; lia).
  assert (Hframe : take (Z.to_nat (Z.of_nat n + 4))
                     (shtp_frame channel seq payload ++ drop n tx_buffer)
                   = shtp_frame channel seq payload).
  { apply take_app_length'. unfold shtp_frame. cbn [length app]. fold n. lia. }
  rewrite Hframe.
  destruct (tx_replies tw) as [|r rest].
  - eexists _, _. split; [reflexivity|]. reflexivity.
  - destruct (r <? 0); eexists _, _; (split; [reflexivity|]); reflexivity.
Qed.

(** Receiving a well-formed packet stores it at the start of [rx_buffer]. *)
Lemma receive_packet_frame rx header h0 h1 ch seq payload timeout_ms :
  0 <= h0 < 256 -> 0 <= h1 < 256 ->
  h0 + 256 * (h1 mod 128) = Z.of_nat (length payload) + 4 ->
  Z.of_nat (length payload) + 4 <= 512 ->
  length (rx_buffer rx) = 512%nat ->
  length header = 4%nat ->
  exists tw',
    bno085_receive_packet (serving (h0 :: h1 :: ch :: seq :: payload)) rx
      header timeout_ms
    = (Z.of_nat (length payload) + 4,
       set_rx rx
         (h0 :: h1 :: ch :: seq :: payload
            ++ drop (length payload + 4) (rx_buffer rx))
         (Z.of_nat (length payload) + 4),
       tw').
Proof.
  intros Hh0 Hh1 Hlen Hfit Hrx Hhdr.
  set (n := length payload) in *.
  do 4 (destruct header as [|? header]; [discriminate Hhdr|]).
  destruct header; [|discriminate Hhdr].
  unfold bno085_receive_packet.
  set (tw1 := {| Twim.initialized := true; tx_replies := [];
                 rx_replies := [(Z.of_nat n, payload)]; tx_frames := [] |}).
  assert (Hread : twim_read (serving (h0 :: h1 :: ch :: seq :: payload))
                    (i2c_addr rx) 4 = (4, [h0; h1; ch; seq], tw1)).
  { unfold twim_read, serving, tw1.
    cbn [Twim.initialized rx_replies tx_replies tx_frames negb].
    change (4 =? 0) with false. cbv iota.
    change (Z.to_nat 4) with 4%nat. cbn [take drop length].
    rewrite take_0. repeat f_equal. unfold n. lia. }
  rewrite Hread.
  change (memcpy_at [z; z0; z1; z2] 0 [h0; h1; ch; seq] 4)
    with [h0; h1; ch; seq].
  change (byte_at [h0; h1; ch; seq] 0) with h0.
  change (byte_at [h0; h1; ch; seq] 1) with h1.
  rewrite header_length, Hlen by assumption.
  change (4 <? 0) with false.
  replace (Z.of_nat n + 4 =? 0) with false by (symmetry; lia).
  unfold SHTP_HEADER_SIZE, RX_BUFFER_SIZE.
  replace (Z.of_nat n + 4 <? 4) with false by (symmetry; lia).
  replace (Z.of_nat n + 4 >? 512) with false by (symmetry; lia).
  destruct (Z.of_nat n + 4 =? 32767) eqn:Hsent.
  { exfalso. lia. }
  cbn [orb]. cbv iota.
  replace (u16 (Z.of_nat n + 4 - 4)) with (Z.of_nat n)
    by (unfold u16; rewrite Z.mod_small; lia).
  assert (Hbuf0 : memcpy_at (rx_buffer rx) 0 [h0; h1; ch; seq] 4
                  = h0 :: h1 :: ch :: seq :: drop 4 (rx_buffer rx)).
  { rewrite memcpy_at_spec; cbn [length]; try lia. reflexivity. }
  rewrite Hbuf0.
  destruct (Z.of_nat n >? 0) eqn:Hpos.
  - assert (Hread2 : twim_read tw1 (i2c_addr rx) (Z.of_nat n)
                     = (Z.of_nat n, payload,
                        {| Twim.initialized := true; tx_replies := [];
                           rx_replies := []; tx_frames := [] |})).
    { unfold twim_read, tw1. cbn [Twim.initialized rx_replies negb tx_replies tx_frames].
      replace (Z.of_nat n =? 0) with false by (symmetry; lia).
      rewrite Nat2Z.id. unfold n. rewrite firstn_all. reflexivity. }
    rewrite Hread2.
    replace (Z.of_nat n <? 0) with false by (symmetry; lia).
    eexists. f_equal. f_equal. f_equal.
    rewrite memcpy_at_spec; cbn [length];
      try (subst n; rewrite ?length_drop; lia).
    rewrite Nat2Z.id. change (Z.to_nat 4) with 4%nat.
    unfold n at 1. rewrite firstn_all.
    cbn [take drop Nat.add app]. rewrite drop_drop.
    rewrite take_0. cbn [app]. do 6 f_equal. lia.
  - assert (Hn : n = 0%nat) by lia.
    destruct payload; [|cbn in Hn; discriminate Hn].
    eexists. reflexivity.
Qed.

Lemma rx_view rx h0 h1 ch seq (payload rest : list Z) :
  rx_channel (set_rx rx (h0 :: h1 :: ch :: seq :: payload ++ rest)
                (Z.of_nat (length payload) + 4)) = ch
  /\ rx_payload (set_rx rx (h0 :: h1 :: ch :: seq :: payload ++ rest)
                   (Z.of_nat (length payload) + 4)) = payload
  /\ rx_sequence (set_rx rx (h0 :: h1 :: ch :: seq :: payload ++ rest)
                    (Z.of_nat (length payload) + 4)) = seq.
Proof.
  unfold rx_payload. cbn [rx_len rx_buffer set_rx].
  split; [reflexivity|]. split; [|reflexivity].
  unfold SHTP_HEADER_SIZE. change (Z.to_nat 4) with 4%nat. cbn [drop].
  replace (Z.to_nat (Z.of_nat (length payload) + 4 - 4)) with (length payload) by lia.
  apply take_app_length.
Qed.

(** C2.  For every channel 0..5 and every payload that fits the transmit
    buffer (payload length + 4 <= 256), [bno085_send_packet] hands the bus
    the frame of the wire format, whose sequence byte is the channel's
    counter before the call;
    receiving that frame with [bno085_receive_packet] returns the packet
    length and leaves the same channel and the same payload bytes in the
    handle; afterwards the channel's counter is one larger modulo 256 and
    every other counter is unchanged. *)
Theorem shtp_send_receive_roundtrip
    (tw : twim_t) (dev rx : bno085_t) (tx_buffer header : list Z)
    (channel : Z) (payload : list Z) (timeout_ms : Z) :
  Twim.initialized tw = true ->
  length (sequence dev) = 6%nat ->
  length tx_buffer = 256%nat ->
  length (rx_buffer rx) = 512%nat ->
  length header = 4%nat ->
  0 <= channel <= 5 ->
  Z.of_nat (length payload) + 4 <= 256 ->
  exists ret dev' tw' frame seq,
    bno085_send_packet tw dev tx_buffer channel (Some payload)
      (Z.of_nat (length payload)) = Some (ret, dev', tw')
    /\ tx_frames tw' = tx_frames tw ++ [(i2c_addr dev, frame)]
    /\ sequence dev !! Z.to_nat channel = Some seq
    /\ frame = shtp_frame channel seq payload
    /\ frame !! 3%nat = Some seq
    /\ (let '(r, rx', _) :=
          bno085_receive_packet (serving frame) rx header timeout_ms in
        r = Z.of_nat (length payload) + 4
        /\ rx_channel rx' = channel
        /\ rx_payload rx' = payload
        /\ rx_sequence rx' = seq)
    /\ sequence dev' !! Z.to_nat channel = Some ((seq + 1) mod 256)
    /\ (forall c : nat, c <> Z.to_nat channel ->
          sequence dev' !! c = sequence dev !! c).
Proof.
  intros Hinit Hseqlen Htx Hrx Hhdr Hch Hfit.
  destruct (lookup_lt_is_Some_2 (sequence dev) (Z.to_nat channel))
    as [seq Hseq]; [lia|].
  destruct (send_packet_frame tw dev tx_buffer channel payload seq)
    as (ret & tw' & Hsend & Hframes); try assumption; [lia|].
  exists ret, (set_sequence dev
                 (<[Z.to_nat channel := u8 (seq + 1)]> (sequence dev))),
    tw', (shtp_frame channel seq payload), seq.
  split; [exact Hsend|]. split; [exact Hframes|].
  split; [exact Hseq|]. split; [reflexivity|]. split; [reflexivity|].
  split.
  - set (n := Z.of_nat (length payload)) in *.
    assert (Hn : 0 <= n) by (subst n; lia).
    assert (Hq0 : 0 <= (n + 4) / 256) by (apply Z.div_pos; lia).
    assert (Hq1 : (n + 4) / 256 < 128)
      by (apply Z.div_lt_upper_bound; lia).
    assert (H0 : 0 <= (n + 4) mod 256 < 256) by (apply Z.mod_pos_bound; lia).
    assert (H1 : 0 <= ((n + 4) / 256) mod 128 < 128)
      by (apply Z.mod_pos_bound; lia).
    destruct (receive_packet_frame rx header ((n + 4) mod 256)
                (((n + 4) / 256) mod 128) channel seq payload timeout_ms)
      as [tw2 Hrecv]; try assumption; try lia.
    { rewrite !(Z.mod_small _ 128) by lia.
      pose proof (Z.div_mod (n + 4) 256 ltac:(lia)). subst n. lia. }
    subst n. unfold shtp_frame. cbn [app]. rewrite Hrecv.
    split; [reflexivity|]. apply rx_view.
  - cbn [sequence set_sequence]. split.
    + rewrite list_lookup_insert_eq by lia. reflexivity.
    + intros c Hc. apply list_lookup_insert_ne. congruence.
Qed.

Lemma shtp_send_receive_roundtrip_witness :
  exists ret dev' tw' frame,
    bno085_send_packet (bus_write_ok 6) dev0 (repeat 0 256) 2
      (Some [0xF9; 0]) 2 = Some (ret, dev', tw')
    /\ tx_frames tw' = [(0x4A, frame)]
    /\ rx_payload
         (snd (fst (bno085_receive_packet (serving frame) dev0
                      (repeat 0 4) 100))) = [0xF9; 0]
    /\ sequence dev' = [0; 0; 1; 0; 0; 0].
Proof.
  destruct (shtp_send_receive_roundtrip (bus_write_ok 6) dev0 dev0
              (repeat 0 256) (repeat 0 4) 2 [0xF9; 0] 100)
    as (ret & dev' & tw' & frame & seq & Hsend & Hframes & _ & _ & _ & Hrecv & _);
    try reflexivity; try (cbn; lia).
  exists ret, dev', tw', frame.
  vm_compute in Hsend. injection Hsend as <- <- <-.
  vm_compute in Hframes. injection Hframes as <-.
  repeat split; vm_compute; reflexivity.
Defined.

(** A send whose packet fits advances the channel's counter whatever the
    bus answers, and reports [BNO085_ERR_I2C] when the transfer fails. *)
Lemma send_packet_attempt tw dev tx_buffer channel data len seq :
  length tx_buffer = 256%nat ->
  sequence dev !! Z.to_nat channel = Some seq ->
  0 <= len -> len + 4 <= 256 ->
  match data with
  | Some bytes => len <= Z.of_nat (length bytes)
  | None => True
  end ->
  exists tx,
    bno085_send_packet tw dev tx_buffer channel data len
    = Some (if fst (twim_write tw (i2c_addr dev) tx (len + 4) true) <? 0
            then BNO085_ERR_I2C else BNO085_OK,
            set_sequence dev
              (<[Z.to_nat channel := u8 (seq + 1)]> (sequence dev)),
            snd (twim_write tw (i2c_addr dev) tx (len + 4) true)).
Proof.
  intros Htx Hseq Hlen0 Hfit Hdata.
  unfold bno085_send_packet.
  replace (u16 (len + SHTP_HEADER_SIZE)) with (len + 4)
    by (unfold u16, SHTP_HEADER_SIZE; rewrite Z.mod_small; lia).
  replace (len + 4 >? TX_BUFFER_SIZE) with false
    by (symmetry; unfold TX_BUFFER_SIZE; lia).
  rewrite Hseq.
  assert (Hfin : forall tx,
    (let '(result, tw') := twim_write tw (i2c_addr dev) tx (len + 4) true in
     if result <? 0
     then Some (BNO085_ERR_I2C,
                set_sequence dev
                  (<[Z.to_nat channel := u8 (seq + 1)]> (sequence dev)), tw')
     else Some (BNO085_OK,
                set_sequence dev
                  (<[Z.to_nat channel := u8 (seq + 1)]> (sequence dev)), tw'))
    = Some (if fst (twim_write tw (i2c_addr dev) tx (len + 4) true) <? 0
            then BNO085_ERR_I2C else BNO085_OK,
            set_sequence dev
              (<[Z.to_nat channel := u8 (seq + 1)]> (sequence dev)),
            snd (twim_write tw (i2c_addr dev) tx (len + 4) true))).
  { intros tx. destruct (twim_write tw (i2c_addr dev) tx (len + 4) true) as [r tw'].
    cbn [fst snd]. destruct (r <? 0); reflexivity. }
  destruct data as [bytes|].
  - destruct (len >? 0) eqn:Hpos.
    + replace (4 + len <=? TX_BUFFER_SIZE) with true
        by (symmetry; unfold TX_BUFFER_SIZE; lia).
      replace (len <=? Z.of_nat (length bytes)) with true by (symmetry; lia).
      cbn [andb]. eexists. apply Hfin.
    + eexists. apply Hfin.
  - eexists. apply Hfin.
Qed.

(** The same for a bus that fails the write transfer with a NACK. *)
Lemma send_packet_counts_failed_attempt dev tx_buffer channel payload seq :
  length tx_buffer = 256%nat ->
  sequence dev !! Z.to_nat channel = Some seq ->
  Z.of_nat (length payload) + 4 <= 256 ->
  exists tw',
    bno085_send_packet bus_write_nack dev tx_buffer channel (Some payload)
      (Z.of_nat (length payload))
    = Some (BNO085_ERR_I2C,
            set_sequence dev
              (<[Z.to_nat channel := u8 (seq + 1)]> (sequence dev)), tw').
Proof.
  intros Htx Hseq Hfit.
  destruct (send_packet_attempt bus_write_nack dev tx_buffer channel
              (Some payload) (Z.of_nat (length payload)) seq)
    as [tx Hsend]; try assumption; try lia.
  rewrite Hsend. eexists. f_equal. f_equal. f_equal.
  unfold twim_write, bus_write_nack.
  cbn [Twim.initialized negb tx_replies].
  replace (Z.of_nat (length payload) + 4 =? 0) with false by (symmetry; lia).
  reflexivity.
Qed.

(** Lengths whose packet length exceeds the buffer without wrapping around
    16 bits are refused, and nothing changes. *)
Lemma send_packet_too_long tw dev tx_buffer channel data len :
  252 < len <= 65531 ->
  bno085_send_packet tw dev tx_buffer channel data len
  = Some (BNO085_ERR_BUFFER_OVERFLOW, dev, tw).
Proof.
  intros Hlen. unfold bno085_send_packet.
  replace (u16 (len + SHTP_HEADER_SIZE)) with (len + 4)
    by (unfold u16, SHTP_HEADER_SIZE; rewrite Z.mod_small; lia).
  replace (len + 4 >? TX_BUFFER_SIZE) with true
    by (symmetry; unfold TX_BUFFER_SIZE; lia).
  reflexivity.
Qed.


(** C5.  Let a read transfer deliver a 4-byte header that announces the
    15-bit length [b0 + 256 * (b1 mod 128)].  An announced length of 0 or
    of 0x7FFF makes [bno085_receive_packet] return 0 (no data); a length
    strictly between 0 and 4 makes it return [BNO085_ERR_INVALID_DATA]; a
    length above 512 (the sentinel 0x7FFF, which the first case covers,
    apart) makes it return [BNO085_ERR_BUFFER_OVERFLOW].  In all three
    cases the handle, and so its [rx_buffer] and [rx_len], is unchanged. *)
Theorem receive_packet_length_classes
    (tw : twim_t) (dev : bno085_t) (header : list Z) (timeout_ms : Z)
    (result b0 b1 b2 b3 : Z) (more : list Z) (rest : list (Z * list Z)) :
  Twim.initialized tw = true ->
  rx_replies tw = (result, b0 :: b1 :: b2 :: b3 :: more) :: rest ->
  0 <= result ->
  is_byte b0 -> is_byte b1 ->
  length header = 4%nat ->
  let announced := b0 + 256 * (b1 mod 128) in
  let '(ret, dev', _) := bno085_receive_packet tw dev header timeout_ms in
  (announced = 0 \/ announced = 0x7FFF -> ret = 0 /\ dev' = dev)
  /\ (0 < announced < 4 -> ret = BNO085_ERR_INVALID_DATA /\ dev' = dev)
  /\ (512 < announced -> announced <> 0x7FFF ->
      ret = BNO085_ERR_BUFFER_OVERFLOW /\ dev' = dev).
Proof.
  intros Hinit Hrep Hres Hb0 Hb1 Hhdr announced.
  do 4 (destruct header as [|? header]; [discriminate Hhdr|]).
  destruct header; [|discriminate Hhdr].
  unfold bno085_receive_packet.
  assert (Hread : twim_read tw (i2c_addr dev) 4
                  = (result, [b0; b1; b2; b3],
                     {| Twim.initialized := true; tx_replies := tx_replies tw;
                        rx_replies := rest; tx_frames := tx_frames tw |})).
  { unfold twim_read. rewrite Hinit, Hrep. reflexivity. }
  rewrite Hread. clear Hread.
  change (memcpy_at [z; z0; z1; z2] 0 [b0; b1; b2; b3] 4)
    with [b0; b1; b2; b3].
  change (byte_at [b0; b1; b2; b3] 0) with b0.
  change (byte_at [b0; b1; b2; b3] 1) with b1.
  rewrite header_length by assumption. fold announced.
  replace (result <? 0) with false by (symmetry; lia).
  assert (Hrange : 0 <= announced < 32768).
  { unfold announced, is_byte in *.
    pose proof (Z.mod_pos_bound b1 128 ltac:(lia)). lia. }
  unfold SHTP_HEADER_SIZE, RX_BUFFER_SIZE.
  destruct (announced =? 0) eqn:H0; cbn [orb].
  { repeat (split || intro); first [reflexivity | lia | exfalso; lia]. }
  destruct (announced =? 32767) eqn:Hs.
  { repeat (split || intro); first [reflexivity | lia | exfalso; lia]. }
  destruct (announced <? 4) eqn:Hlt.
  { repeat (split || intro); first [reflexivity | lia | exfalso; lia]. }
  destruct (announced >? 512) eqn:Hgt.
  { repeat (split || intro); first [reflexivity | lia | exfalso; lia]. }
  set (buf := memcpy_at (rx_buffer dev) 0 [b0; b1; b2; b3] 4).
  destruct (u16 (announced - 4) >? 0).
  - destruct (twim_read _ _ _) as [[r s] tw2].
    destruct (r <? 0); repeat (split || intro);
      first [reflexivity | lia | exfalso; lia].
  - repeat (split || intro); first [reflexivity | lia | exfalso; lia].
Qed.

Lemma receive_packet_length_classes_witness :
  fst (bno085_receive_packet (bus_read [0x00; 0x03; 3; 0]) dev0
         (repeat 0 4) 0) = (BNO085_ERR_BUFFER_OVERFLOW, dev0)
  /\ fst (bno085_receive_packet (bus_read [0xFF; 0xFF; 3; 0]) dev0
            (repeat 0 4) 0) = (0, dev0)
  /\ fst (bno085_receive_packet (bus_read [0x02; 0x80; 3; 0]) dev0
            (repeat 0 4) 0) = (BNO085_ERR_INVALID_DATA, dev0).
Proof.
  pose proof (receive_packet_length_classes (bus_read [0x00; 0x03; 3; 0])
                dev0 (repeat 0 4) 0 4 0x00 0x03 3 0 [] []
                eq_refl eq_refl ltac:(lia) ltac:(unfold is_byte; lia)
                ltac:(unfold is_byte; lia) eq_refl) as H1.
  pose proof (receive_packet_length_classes (bus_read [0xFF; 0xFF; 3; 0])
                dev0 (repeat 0 4) 0 4 0xFF 0xFF 3 0 [] []
                eq_refl eq_refl ltac:(lia) ltac:(unfold is_byte; lia)
                ltac:(unfold is_byte; lia) eq_refl) as H2.
  pose proof (receive_packet_length_classes (bus_read [0x02; 0x80; 3; 0])
                dev0 (repeat 0 4) 0 4 0x02 0x80 3 0 [] []
                eq_refl eq_refl ltac:(lia) ltac:(unfold is_byte; lia)
                ltac:(unfold is_byte; lia) eq_refl) as H3.
  cbv zeta in H1, H2, H3.
  destruct (bno085_receive_packet (bus_read [0x00; 0x03; 3; 0]) dev0
              (repeat 0 4) 0) as [[r1 d1] t1].
  destruct (bno085_receive_packet (bus_read [0xFF; 0xFF; 3; 0]) dev0
              (repeat 0 4) 0) as [[r2 d2] t2].
  destruct (bno085_receive_packet (bus_read [0x02; 0x80; 3; 0]) dev0
              (repeat 0 4) 0) as [[r3 d3] t3].
  destruct H1 as (_ & _ & H1). destruct H2 as (H2 & _).
  destruct H3 as (_ & H3 & _).
  destruct H1 as (-> & ->);
    [vm_compute; reflexivity | vm_compute; discriminate |].
  destruct H2 as (-> & ->); [right; vm_compute; reflexivity|].
  destruct H3 as (-> & ->); [vm_compute; split; reflexivity|].
  repeat split.
Defined.

(** ** Sensor report decoder *)

Lemma payload_len_eq (dev : bno085_t) :
  4 <= rx_len dev < 65536 ->
  u16 (rx_len dev - SHTP_HEADER_SIZE) = rx_len dev - 4.
Proof. intros H. unfold u16, SHTP_HEADER_SIZE. apply Z.mod_small. lia. Qed.

Ltac decide_length_test :=
  match goal with
  | |- context [?a <? ?b] =>
      first [ replace (a <? b) with true by (symmetry; lia)
            | replace (a <? b) with false by (symmetry; lia) ]
  | |- context [?a >=? ?b] =>
      first [ replace (a >=? b) with true by (symmetry; lia)
            | replace (a >=? b) with false by (symmetry; lia) ]
  end.



(** C7.  When the handle holds a packet on the input-reports channel with a
    payload of at least 5 bytes whose first byte is none of the report ids
    the decoder has a case for, [bno085_parse_sensor_report] returns 0 and
    [*data] is left exactly as it was. *)
Theorem parse_unknown_report_ignored
    (dev : bno085_t) (data : bno085_data_t) :
  rx_channel dev = SHTP_CHANNEL_REPORTS ->
  4 <= rx_len dev < 65536 ->
  5 <= rx_len dev - 4 ->
  ~ In (byte_at (rx_buffer dev) 4) known_report_ids ->
  bno085_parse_sensor_report dev data = (0, data).
Proof.
  intros Hch Hlen Hfive Hnot.
  unfold bno085_parse_sensor_report.
  unfold rx_channel in Hch. rewrite Hch, (payload_len_eq dev Hlen).
  change (SHTP_HEADER_SIZE + 0) with 4.
  set (id := byte_at (rx_buffer dev) 4) in *.
  cbn [negb Z.eqb SHTP_CHANNEL_REPORTS Pos.eqb].
  replace (rx_len dev - 4 <? 5) with false by (symmetry; lia).
  unfold known_report_ids in Hnot. cbn [In] in Hnot.
  repeat match goal with
  | |- context [id =? ?c] =>
      replace (id =? c) with false
        by (symmetry; apply Z.eqb_neq; intros E; apply Hnot;
            rewrite E; tauto)
  end.
  reflexivity.
Qed.

Lemma parse_unknown_report_ignored_witness :
  bno085_parse_sensor_report (dev_holding pressure_report) data0 = (0, data0).
Proof.
  apply (parse_unknown_report_ignored (dev_holding pressure_report) data0).
  - reflexivity.
  - cbn. lia.
  - cbn. lia.
  - cbv. intuition discriminate.
Defined.


(** ** Fixed-point conversion in binary32 *)

Lemma binary_round_aux_canonical (s : bool) (mz : positive) (ez : Z) :
  digits2_pos mz = 24%positive ->
  -149 <= ez <= 104 ->
  binary_round_aux 24 128 s (Z.pos mz) ez loc_Exact = S754_finite s mz ez.
Proof.
  intros Hd He.
  unfold binary_round_aux, shr_fexp. cbn [Zdigits2]. rewrite Hd.
  unfold fexp, emin.
  replace (Z.max (24 + ez - 24) (3 - 128 - 24) - ez) with 0 by lia.
  cbn [shr shr_record_of_loc loc_of_shr_record shr_m round_nearest_even Zdigits2].
  rewrite Hd.
  replace (Z.max (24 + ez - 24) (3 - 128 - 24) - ez) with 0 by lia.
  cbn [shr shr_record_of_loc shr_m].
  replace (ez <=? 128 - 24) with true by (symmetry; lia).
  reflexivity.
Qed.

Lemma binary_round_aux_even (s : bool) (mx : positive) (e : Z) :
  digits2_pos mx = 24%positive ->
  -150 <= e <= 103 ->
  binary_round_aux 24 128 s (Z.pos mx~0) e loc_Exact
  = S754_finite s mx (e + 1).
Proof.
  intros Hd He.
  unfold binary_round_aux, shr_fexp. cbn [Zdigits2 digits2_pos]. rewrite Hd.
  unfold fexp, emin.
  replace (Z.max (Z.pos (Pos.succ 24) + e - 24) (3 - 128 - 24) - e) with 1
    by lia.
  cbn [shr shr_record_of_loc loc_of_shr_record shr_m round_nearest_even
       SpecFloat.iter_pos shr_1 shr_r shr_s orb Zdigits2].
  rewrite Hd.
  replace (Z.max (24 + (e + 1) - 24) (3 - 128 - 24) - (e + 1)) with 0 by lia.
  cbn [shr shr_record_of_loc shr_m].
  replace (e + 1 <=? 128 - 24) with true by (symmetry; lia).
  reflexivity.
Qed.

Lemma digits2_iter_xO (m p : positive) :
  digits2_pos (Pos.iter xO m p) = (digits2_pos m + p)%positive.
Proof.
  induction p as [|p IH] using Pos.peano_ind.
  - cbn. lia.
  - rewrite Pos.iter_succ. cbn [digits2_pos]. rewrite IH. lia.
Qed.

Lemma pos_iter_xO (m p : positive) :
  Z.pos (Pos.iter xO m p) = Z.pos m * 2 ^ Z.pos p.
Proof.
  induction p as [|p IH] using Pos.peano_ind.
  - cbn. lia.
  - rewrite Pos.iter_succ, Pos2Z.inj_xO, IH, Pos2Z.inj_succ, Z.pow_succ_r; lia.
Qed.

Lemma digits2_bound (m : positive) :
  Z.pos m < 2 ^ Z.pos (digits2_pos m) <= 2 * Z.pos m.
Proof.
  induction m as [m IH | m IH |]; cbn [digits2_pos].
  - rewrite Pos2Z.inj_succ, Z.pow_succ_r by lia. lia.
  - rewrite Pos2Z.inj_succ, Z.pow_succ_r by lia. lia.
  - cbn. lia.
Qed.

(** [(float)z] for a 16-bit magnitude: the mantissa is the magnitude
    shifted to 24 digits. *)
Lemma f32_of_small_pos (s : bool) (m : positive) :
  Z.pos m <= 32768 ->
  exists k : positive,
    Z.pos k = 24 - Z.pos (digits2_pos m)
    /\ binary_round 24 128 s m 0
       = S754_finite s (Pos.iter xO m k) (- Z.pos k).
Proof.
  intros Hm.
  pose proof (digits2_bound m) as Hb.
  assert (Hd : Z.pos (digits2_pos m) <= 16).
  { destruct (Z.le_gt_cases (Z.pos (digits2_pos m)) 16) as [H|H]; [exact H|].
    exfalso.
    assert (2 ^ 17 <= 2 ^ Z.pos (digits2_pos m))
      by (apply Z.pow_le_mono_r; lia).
    change (2 ^ 17) with 131072 in *. lia. }
  unfold binary_round, shl_align, fexp, emin.
  destruct (Z.max (Z.pos (digits2_pos m) + 0 - 24) (3 - 128 - 24) - 0)
    as [|p|k] eqn:E; try lia.
  exists k. split; [lia|].
  replace (Z.max (Z.pos (digits2_pos m) + 0 - 24) (3 - 128 - 24))
    with (- Z.pos k) by lia.
  apply binary_round_aux_canonical; [|lia].
  rewrite digits2_iter_xO. lia.
Qed.

Lemma div_eucl_pow2 (mx : positive) :
  Z.div_eucl (Z.shiftl (Z.pos mx) 24) 8388608 = (Z.pos mx~0, 0).
Proof.
  rewrite Z.shiftl_mul_pow2 by lia. change (2 ^ 24) with (2 * 8388608).
  replace (Z.pos mx * (2 * 8388608)) with (Z.pos mx~0 * 8388608) by lia.
  pose proof (Z.div_mul (Z.pos mx~0) 8388608 ltac:(lia)) as Hq.
  pose proof (Z.mod_mul (Z.pos mx~0) 8388608 ltac:(lia)) as Hr.
  unfold Z.div, Z.modulo in Hq, Hr.
  destruct (Z.div_eucl (Z.pos mx~0 * 8388608) 8388608) as [q r].
  congruence.
Qed.

Lemma f32_div_pow2 (s : bool) (mx : positive) (ex ey : Z) :
  digits2_pos mx = 24%positive ->
  -148 <= ex - ey - 23 <= 104 ->
  f32_div (S754_finite s mx ex) (S754_finite false 8388608 ey)
  = S754_finite s mx (ex - ey - 23).
Proof.
  intros Hd He.
  unfold f32_div, f32_prec, f32_emax, SFdiv, SFdiv_core_binary.
  cbn [Zdigits2]. rewrite Hd.
  change (digits2_pos 8388608) with 24%positive.
  unfold fexp, emin.
  replace (Z.min (Z.max (24 + ex - (24 + ey) - 24) (3 - 128 - 24)) (ex - ey))
    with (ex - ey - 24) by lia.
  replace (ex - ey - (ex - ey - 24)) with 24 by lia.
  rewrite div_eucl_pow2.
  change (new_location 8388608 0) with loc_Exact.
  rewrite xorb_false_r.
  rewrite binary_round_aux_even by (assumption || lia).
  f_equal. lia.
Qed.

Lemma f32_of_pow2 (q : Z) :
  0 <= q <= 14 ->
  f32_of_int (Z.shiftl 1 q) = S754_finite false 8388608 (q - 23).
Proof.
  intros Hq.
  assert (H : In q [0; 1; 2; 3; 4; 5; 6; 7; 8; 9; 10; 11; 12; 13; 14]).
  { cbn [In]. lia. }
  cbn [In] in H.
  repeat (destruct H as [<- | H]; [vm_compute; reflexivity|]).
  destruct H.
Qed.

(** [SHTP_Q_TO_FLOAT] of a non-zero 16-bit magnitude with sign [s]. *)
Lemma q_to_float_magnitude (s : bool) (m : positive) (q : Z) :
  Z.pos m <= 32768 -> 0 <= q <= 14 ->
  exists k : positive,
    f32_div (binary_round 24 128 s m 0) (f32_of_int (Z.shiftl 1 q))
    = S754_finite s (Pos.iter xO m k) (- Z.pos k - q).
Proof.
  intros Hm Hq.
  destruct (f32_of_small_pos s m Hm) as (k & Hk & Hround).
  exists k. rewrite Hround, f32_of_pow2 by assumption.
  rewrite f32_div_pow2.
  - f_equal. lia.
  - rewrite digits2_iter_xO. lia.
  - lia.
Qed.

Lemma scaled_value (c : Z) (k q : Z) :
  0 <= k -> 0 <= q ->
  (inject_Z (c * 2 ^ k) * Qpower 2 (- k - q)
   == inject_Z c / inject_Z (2 ^ q))%Q.
Proof.
  intros Hk Hq.
  replace (- k - q) with (- (k + q)) by lia.
  rewrite Qpower_opp.
  change 2%Q with (inject_Z 2).
  rewrite <- Zpower_Qpower by lia.
  rewrite Z.pow_add_r by lia.
  rewrite !inject_Z_mult.
  assert (Hk0 : ~ (inject_Z (2 ^ k) == 0)%Q).
  { change 0%Q with (inject_Z 0). rewrite inject_Z_injective.
    apply Z.pow_nonzero; lia. }
  assert (Hq0 : ~ (inject_Z (2 ^ q) == 0)%Q).
  { change 0%Q with (inject_Z 0). rewrite inject_Z_injective.
    apply Z.pow_nonzero; lia. }
  field. split; assumption.
Qed.

(** [SHTP_Q_TO_FLOAT] is exact on every signed 16-bit value. *)
Lemma q_to_float_exact_q (raw q : Z) :
  -32768 <= raw <= 32767 ->
  0 <= q <= 14 ->
  exact_q q (SHTP_Q_TO_FLOAT raw q) raw.
Proof.
  intros Hraw Hq. unfold exact_q, f32_is, SHTP_Q_TO_FLOAT.
  destruct raw as [|m|m].
  - rewrite f32_of_pow2 by assumption. exists 0%Q. split; [reflexivity|].
    unfold Qdiv. rewrite Qmult_0_l. reflexivity.
  - destruct (q_to_float_magnitude false m q) as [k Hk]; [lia|assumption|].
    unfold f32_of_int at 1, binary_normalize, f32_prec, f32_emax.
    rewrite Hk. cbn [f32_value cond_Zopp]. eexists. split; [reflexivity|].
    rewrite pos_iter_xO. apply scaled_value; lia.
  - destruct (q_to_float_magnitude true m q) as [k Hk]; [lia|assumption|].
    unfold f32_of_int at 1, binary_normalize, f32_prec, f32_emax.
    rewrite Hk. cbn [f32_value cond_Zopp]. eexists. split; [reflexivity|].
    change (- Z.pos (Pos.iter xO m k)) with (- (Z.pos (Pos.iter xO m k))).
    rewrite pos_iter_xO.
    replace (- (Z.pos m * 2 ^ Z.pos k)) with (Z.neg m * 2 ^ Z.pos k) by lia.
    apply scaled_value; lia.
Qed.

(** Every fixed-point field the decoder stores is exact. *)
Lemma decoded_fields_exact (dev : bno085_t) (data : bno085_data_t) (id : Z) :
  rx_channel dev = SHTP_CHANNEL_REPORTS ->
  4 <= rx_len dev < 65536 ->
  byte_at (rx_buffer dev) 4 = id ->
  In id fixed_point_report_ids ->
  report_min_len id <= rx_len dev - 4 ->
  Forall2 (exact_q (report_q id))
    (decoded_fields (snd (bno085_parse_sensor_report dev data)) id)
    (raw_fields dev id).
Proof.
  intros Hch Hlen Hid Hin Hlong.
  unfold bno085_parse_sensor_report.
  unfold rx_channel in Hch. rewrite Hch, (payload_len_eq dev Hlen).
  change (SHTP_HEADER_SIZE + 0) with 4. rewrite Hid.
  cbn [negb Z.eqb SHTP_CHANNEL_REPORTS Pos.eqb].
  unfold fixed_point_report_ids in Hin. cbn [In] in Hin.
  repeat (destruct Hin as [<- | Hin];
    [ cbn in Hlong;
      replace (rx_len dev - 4 <? 5) with false by (symmetry; lia);
      cbn [Z.eqb Pos.eqb orb SH2_ROTATION_VECTOR
             SH2_GAME_ROTATION_VECTOR SH2_GEOMAGNETIC_ROTATION
             SH2_ACCELEROMETER SH2_LINEAR_ACCELERATION SH2_GRAVITY
             SH2_GYROSCOPE SH2_MAGNETOMETER];
      decide_length_test;
      cbn [snd];
      unfold decoded_fields, raw_fields, report_q, decode_vector;
      cbn [Z.eqb Pos.eqb orb SH2_ROTATION_VECTOR
             SH2_GAME_ROTATION_VECTOR SH2_GEOMAGNETIC_ROTATION
             SH2_ACCELEROMETER SH2_LINEAR_ACCELERATION SH2_GRAVITY
             SH2_GYROSCOPE SH2_MAGNETOMETER SHTP_Q_ROTATION_VECTOR
             SHTP_Q_ACCELEROMETER SHTP_Q_GYROSCOPE SHTP_Q_MAGNETOMETER
             store_report rotation_vector game_rotation accelerometer
             gyroscope magnetometer linear_accel gravity];
      unfold quat_fields, vector_fields;
      cbn [q_i q_j q_k q_real v_x v_y v_z app];
      repeat constructor;
      apply q_to_float_exact_q;
      first [ apply le_int16_range
            | unfold SHTP_Q_ROTATION_VECTOR, SHTP_Q_ACCELEROMETER,
                SHTP_Q_GYROSCOPE, SHTP_Q_MAGNETOMETER; lia ] | ]).
  destruct Hin.
Qed.

Lemma accuracy_exact (dev : bno085_t) (data : bno085_data_t) :
  rx_channel dev = SHTP_CHANNEL_REPORTS ->
  4 <= rx_len dev < 65536 ->
  byte_at (rx_buffer dev) 4 = SH2_ROTATION_VECTOR ->
  16 <= rx_len dev - 4 ->
  exact_q SHTP_Q_ACCURACY
    (q_accuracy_rad
       (rotation_vector (snd (bno085_parse_sensor_report dev data))))
    (le_int16 (byte_at (rx_buffer dev) 17) (byte_at (rx_buffer dev) 18)).
Proof.
  intros Hch Hlen Hid Hlong.
  unfold bno085_parse_sensor_report.
  unfold rx_channel in Hch. rewrite Hch, (payload_len_eq dev Hlen).
  change (SHTP_HEADER_SIZE + 0) with 4. rewrite Hid.
  cbn [negb Z.eqb SHTP_CHANNEL_REPORTS Pos.eqb].
  replace (rx_len dev - 4 <? 5) with false by (symmetry; lia).
  cbn [Z.eqb Pos.eqb orb andb SH2_ROTATION_VECTOR
         SH2_GAME_ROTATION_VECTOR SH2_GEOMAGNETIC_ROTATION].
  replace (rx_len dev - 4 <? 14) with false by (symmetry; lia).
  replace (rx_len dev - 4 >=? 16) with true by (symmetry; lia).
  cbn [snd store_report rotation_vector q_accuracy_rad].
  apply q_to_float_exact_q; [apply le_int16_range | unfold SHTP_Q_ACCURACY; lia].
Qed.

(** C9.  (1) [SHTP_Q_TO_FLOAT raw q] is a finite binary32 number that stands
    for exactly [raw / 2^q], for every signed 16-bit [raw] and every binary
    point 0..14 (Q14, Q12, Q9, Q8 and Q4 among them).  (2) For every packet
    on the input-reports channel that carries a quaternion or vector report
    of at least its minimum length, each float the decoder stores stands
    for exactly the signed 16-bit field of the packet divided by 2 to the Q
    value of the report type; (3) so does the Q12 accuracy of a rotation
    vector report that carries one.  (4) The rotation-vector report with
    the Q14 fields i = 8192, j = 0, k = 0, real = 8192 decodes to i = 1/2,
    j = 0, k = 0, real = 1/2. *)
Theorem q_format_decode_exact :
  (forall raw q : Z,
     -32768 <= raw <= 32767 -> 0 <= q <= 14 ->
     exact_q q (SHTP_Q_TO_FLOAT raw q) raw)
  /\ (forall (dev : bno085_t) (data : bno085_data_t) (id : Z),
        rx_channel dev = SHTP_CHANNEL_REPORTS ->
        4 <= rx_len dev < 65536 ->
        byte_at (rx_buffer dev) 4 = id ->
        In id fixed_point_report_ids ->
        report_min_len id <= rx_len dev - 4 ->
        Forall2 (exact_q (report_q id))
          (decoded_fields (snd (bno085_parse_sensor_report dev data)) id)
          (raw_fields dev id)
        /\ Forall (fun raw => -32768 <= raw <= 32767) (raw_fields dev id))
  /\ (forall (dev : bno085_t) (data : bno085_data_t),
        rx_channel dev = SHTP_CHANNEL_REPORTS ->
        4 <= rx_len dev < 65536 ->
        byte_at (rx_buffer dev) 4 = SH2_ROTATION_VECTOR ->
        16 <= rx_len dev - 4 ->
        exact_q SHTP_Q_ACCURACY
          (q_accuracy_rad
             (rotation_vector (snd (bno085_parse_sensor_report dev data))))
          (le_int16 (byte_at (rx_buffer dev) 17)
                    (byte_at (rx_buffer dev) 18)))
  /\ (let q := rotation_vector
                 (snd (bno085_parse_sensor_report
                         (dev_holding rotation_report) data0)) in
      fst (bno085_parse_sensor_report (dev_holding rotation_report) data0)
      = SH2_ROTATION_VECTOR
      /\ f32_is (q_i q) (1 # 2) /\ f32_is (q_j q) 0
      /\ f32_is (q_k q) 0 /\ f32_is (q_real q) (1 # 2)).
Proof.
  split; [exact q_to_float_exact_q|]. split.
  - intros dev data id Hch Hlen Hid Hin Hlong. split.
    + apply decoded_fields_exact; assumption.
    + unfold raw_fields.
      destruct (report_q id =? SHTP_Q_ROTATION_VECTOR);
        repeat constructor; apply le_int16_range.
  - split; [exact accuracy_exact|].
    cbv zeta. split; [vm_compute; reflexivity|].
    repeat split; eexists;
      (split; [vm_compute; reflexivity | vm_compute; reflexivity]).
Qed.

Lemma q_format_decode_exact_witness :
  exact_q 14 (SHTP_Q_TO_FLOAT 8192 14) 8192
  /\ exact_q 9 (SHTP_Q_TO_FLOAT (-32768) 9) (-32768).
Proof.
  split.
  - apply (proj1 q_format_decode_exact 8192 14); lia.
  - apply (proj1 q_format_decode_exact (-32768) 9); lia.
Defined.

(** ** The IMU GATT service *)

Section ImuServiceFacts.

Context {App : Type}.
Implicit Types (s : ble_imu_service_t App) (sd : softdevice) (app : App).

(** C1 (as amended).  For each of the four characteristics, a notify call
    with a service and data that are not [NULL] performs no
    [sd_ble_gatts_hvx] call (the SoftDevice is left as it was) when there is
    no connection or when the notify-enabled flag of the characteristic is
    false; it returns [NRF_ERROR_INVALID_STATE] when there is no connection
    and [NRF_SUCCESS] when there is one and the flag is false. *)
Theorem notify_gated sd s (c : notify_char) :
  svc_conn_handle s = BLE_CONN_HANDLE_INVALID \/ notify_flag c s = false ->
  ble_imu_notify sd s c
  = (if svc_conn_handle s =? BLE_CONN_HANDLE_INVALID
     then NRF_ERROR_INVALID_STATE else NRF_SUCCESS, sd).
Proof.
  intros H.
  destruct c; cbn [ble_imu_notify ble_imu_notify_quaternion
                   ble_imu_notify_accelerometer ble_imu_notify_gyroscope
                   ble_imu_notify_status notify_flag] in *;
    destruct (svc_conn_handle s =? BLE_CONN_HANDLE_INVALID) eqn:E;
    try reflexivity;
    (destruct H as [H | H]; [apply Z.eqb_neq in E; contradiction|]);
    cbn [status_notify_enabled assign]; rewrite H; reflexivity.
Qed.

(** C3.  After [ble_imu_service_on_ble_evt] handles a Connected event the
    four notify-enabled flags are false whatever they were, and the
    connection handle is the one of the event; after a Disconnected event
    the four flags are false and the connection handle is 0xFFFF. *)
Theorem connect_disconnect_reset s (e : ble_evt_t) app :
  (evt_id e = BLE_GAP_EVT_CONNECTED ->
   exists s',
     fst (ble_imu_service_on_ble_evt (Some s) (Some e) app) = Some s'
     /\ quat_notify_enabled s' = false
     /\ accel_notify_enabled s' = false
     /\ gyro_notify_enabled s' = false
     /\ status_notify_enabled s' = false
     /\ svc_conn_handle s' = conn_handle e)
  /\ (evt_id e = BLE_GAP_EVT_DISCONNECTED ->
      exists s',
        fst (ble_imu_service_on_ble_evt (Some s) (Some e) app) = Some s'
        /\ quat_notify_enabled s' = false
        /\ accel_notify_enabled s' = false
        /\ gyro_notify_enabled s' = false
        /\ status_notify_enabled s' = false
        /\ svc_conn_handle s' = 0xFFFF).
Proof.
  split; intros He; unfold ble_imu_service_on_ble_evt; rewrite He;
    cbn [Z.eqb Pos.eqb BLE_GAP_EVT_CONNECTED BLE_GAP_EVT_DISCONNECTED];
    eexists; (split; [reflexivity|]); repeat split.
Qed.

(** C4.  A write event of two bytes on the value handle of the sample-rate
    characteristic, whose little-endian value is 0 or above 1000, leaves
    the service (and so [sample_rate_ms]) as it was and does not call the
    application handler; one whose value lies in 1..1000 stores exactly
    that value in [sample_rate_ms] and calls the handler once, with
    [BLE_IMU_EVT_RATE_WRITE] and the value. *)
Theorem rate_write_range s (e : ble_evt_t) app (b0 b1 : Z) :
  evt_id e = BLE_GATTS_EVT_WRITE ->
  handle (write e) = value_handle (rate_handles s) ->
  len (write e) = 2 ->
  data (write e) = [b0; b1] ->
  0 <= b0 < 256 -> 0 <= b1 < 256 ->
  rate_handle_distinct s ->
  let value := b0 + 256 * b1 in
  ((value < 1 \/ 1000 < value) ->
   ble_imu_service_on_ble_evt (Some s) (Some e) app = (Some s, app))
  /\ (1 <= value <= 1000 ->
      exists s',
        ble_imu_service_on_ble_evt (Some s) (Some e) app
        = (Some s',
           match evt_handler s with
           | Some h =>
               h {| evt_type := BLE_IMU_EVT_RATE_WRITE;
                    evt_conn_handle := svc_conn_handle s;
                    evt_data := rate_ms value |} app
           | None => app
           end)
        /\ sample_rate_ms s' = value
        /\ s' = assign s (SampleRate value)).
Proof.
  intros He Hh Hlen Hdata Hb0 Hb1 (Hq & Ha & Hg & Hs) value.
  unfold ble_imu_service_on_ble_evt. rewrite He.
  cbn [Z.eqb Pos.eqb BLE_GAP_EVT_CONNECTED BLE_GAP_EVT_DISCONNECTED
         BLE_GATTS_EVT_WRITE].
  unfold on_write. rewrite Hh, Hlen, Hdata.
  repeat match goal with
  | |- context [value_handle (rate_handles s) =? cccd_handle ?x] =>
      replace (value_handle (rate_handles s) =? cccd_handle x) with false
        by (symmetry; apply Z.eqb_neq; assumption)
  end.
  rewrite !Z.eqb_refl. cbn [andb].
  change (byte_at [b0; b1] 0) with b0. change (byte_at [b0; b1] 1) with b1.
  rewrite lor_shiftl_byte by lia.
  replace (u16 (b0 + 256 * b1)) with value
    by (unfold u16, value; rewrite Z.mod_small; lia).
  split; intros Hv.
  - replace ((value >=? 1) && (value <=? 1000)) with false; [reflexivity|].
    symmetry. apply andb_false_iff. lia.
  - replace ((value >=? 1) && (value <=? 1000)) with true
      by (symmetry; apply andb_true_iff; lia).
    eexists. split; [reflexivity|]. split; reflexivity.
Qed.

End ImuServiceFacts.

Lemma notify_gated_witness :
  ble_imu_notify sd_accepting (service_with 0 false) (NotifyQuaternion unit_quat)
  = (NRF_SUCCESS, sd_accepting)
  /\ ble_imu_notify sd_accepting (service_with BLE_CONN_HANDLE_INVALID true)
       (NotifyStatus 1)
     = (NRF_ERROR_INVALID_STATE, sd_accepting).
Proof.
  split.
  - apply (notify_gated sd_accepting (service_with 0 false)
             (NotifyQuaternion unit_quat)).
    right. reflexivity.
  - apply (notify_gated sd_accepting
             (service_with BLE_CONN_HANDLE_INVALID true) (NotifyStatus 1)).
    left. reflexivity.
Defined.

(** Without a connection every notify entry point returns
    [NRF_ERROR_INVALID_STATE], which is not [NRF_SUCCESS]. *)
Lemma notify_without_connection_fails :
  Forall (fun c =>
            ble_imu_notify sd_accepting
              (service_with BLE_CONN_HANDLE_INVALID false) c
            = (NRF_ERROR_INVALID_STATE, sd_accepting))
         all_notifications
  /\ NRF_ERROR_INVALID_STATE <> NRF_SUCCESS.
Proof.
  split; [|discriminate].
  unfold all_notifications. repeat constructor.
Qed.

Lemma connect_disconnect_reset_witness :
  exists s',
    fst (ble_imu_service_on_ble_evt (Some (service_with 0 true))
           (Some (gap_evt BLE_GAP_EVT_DISCONNECTED 0 0)) [])
    = Some s'
    /\ quat_notify_enabled s' = false
    /\ accel_notify_enabled s' = false
    /\ gyro_notify_enabled s' = false
    /\ status_notify_enabled s' = false
    /\ svc_conn_handle s' = 0xFFFF.
Proof.
  apply (proj2 (connect_disconnect_reset (service_with 0 true)
                  (gap_evt BLE_GAP_EVT_DISCONNECTED 0 0) [])).
  reflexivity.
Defined.

Lemma rate_write_range_witness :
  ble_imu_service_on_ble_evt (Some (service_with 0 true))
    (Some (write_evt 23 [0xE9; 0x03])) []
  = (Some (service_with 0 true), [])
  /\ exists s',
       fst (ble_imu_service_on_ble_evt (Some (service_with 0 true))
              (Some (write_evt 23 [0xE8; 0x03])) []) = Some s'
       /\ sample_rate_ms s' = 1000.
Proof.
  split.
  - apply (proj1 (rate_write_range (service_with 0 true)
                    (write_evt 23 [0xE9; 0x03]) [] 0xE9 0x03
                    eq_refl eq_refl eq_refl eq_refl ltac:(lia) ltac:(lia)
                    ltac:(cbv; intuition discriminate))).
    right. lia.
  - destruct (proj2 (rate_write_range (service_with 0 true)
                       (write_evt 23 [0xE8; 0x03]) [] 0xE8 0x03
                       eq_refl eq_refl eq_refl eq_refl ltac:(lia) ltac:(lia)
                       ltac:(cbv; intuition discriminate)))
      as (s' & Hrun & Hrate & _); [lia|].
    exists s'. rewrite Hrun. split; [reflexivity | exact Hrate].
Defined.

(** ** The advertising policy *)

Section AdvFacts.

Context {App : Type}.
Implicit Types (m : adv_module App) (sd : softdevice) (app : App).

Lemma adv_data_build_policy m sd m' sd' :
  adv_data_build m sd = Some (m', sd') -> same_policy m m'.
Proof.
  unfold adv_data_build. intros H.
  repeat match type of H with
  | mbind _ ?x = Some _ =>
      let E := fresh "E" in
      destruct x as [?|] eqn:E; cbn [mbind option_bind] in H;
      [clear E | discriminate H]
  | (let '(_, _) := ?p in _) = Some _ => destruct p
  end.
  injection H as <- <-. repeat split.
Qed.

Lemma adv_set_configure_policy m sd mode err m' sd' :
  adv_set_configure m sd mode = Some (err, m', sd') -> same_policy m m'.
Proof.
  unfold adv_set_configure. intros H.
  destruct mode.
  - injection H as <- <- <-. repeat split.
  - destruct (adv_data_build m sd) as [[m1 sd1]|] eqn:E;
      cbn [mbind option_bind] in H; [|discriminate H].
    apply adv_data_build_policy in E.
    destruct (sd_ble_gap_adv_set_configure _ _ _ _) as [[e h] sd2].
    injection H as <- <- <-. exact E.
  - destruct (adv_data_build m sd) as [[m1 sd1]|] eqn:E;
      cbn [mbind option_bind] in H; [|discriminate H].
    apply adv_data_build_policy in E.
    destruct (sd_ble_gap_adv_set_configure _ _ _ _) as [[e h] sd2].
    injection H as <- <- <-. exact E.
Qed.


End AdvFacts.



(** * Further properties of the driver, the service and the application *)

Import Bno085Driver Scenarios.

(** ** The driver above the codec *)

(** A write transfer on an initialised bus takes the next reply, or times
    out when none is left, and is recorded. *)
Lemma twim_write_reply tw addr data len stop :
  Twim.initialized tw = true -> len <> 0 ->
  twim_write tw addr data len stop
  = (hd TWIM_ERR_TIMEOUT (tx_replies tw),
     {| Twim.initialized := true; tx_replies := tl (tx_replies tw);
        rx_replies := rx_replies tw;
        tx_frames := tx_frames tw ++ [(addr, take (Z.to_nat len) data)] |}).
Proof.
  intros Hinit Hlen. unfold twim_write. rewrite Hinit. cbn [negb].
  replace (len =? 0) with false by (symmetry; lia).
  destruct (tx_replies tw); reflexivity.
Qed.

(** What [bno085_send_packet] returns and leaves on the bus for a payload
    that fits. *)
Lemma send_packet_reply tw dev tx_buffer channel payload seq :
  Twim.initialized tw = true ->
  length tx_buffer = 256%nat ->
  sequence dev !! Z.to_nat channel = Some seq ->
  Z.of_nat (length payload) <= 252 ->
  bno085_send_packet tw dev tx_buffer channel (Some payload)
    (Z.of_nat (length payload))
  = Some (if hd TWIM_ERR_TIMEOUT (tx_replies tw) <? 0
          then BNO085_ERR_I2C else BNO085_OK,
          set_sequence dev
            (<[Z.to_nat channel := u8 (seq + 1)]> (sequence dev)),
          {| Twim.initialized := true; tx_replies := tl (tx_replies tw);
             rx_replies := rx_replies tw;
             tx_frames := tx_frames tw
               ++ [(i2c_addr dev, shtp_frame channel seq payload)] |}).
Proof.
  intros Hinit Htx Hseq Hlen.
  destruct (send_packet_frame tw dev tx_buffer channel payload seq)
    as (ret & tw' & Hsend & Hframes); try assumption.
  destruct (send_packet_attempt tw dev tx_buffer channel (Some payload)
              (Z.of_nat (length payload)) seq)
    as [tx Hatt]; try assumption; try lia.
  rewrite Hatt in Hsend |- *.
  rewrite twim_write_reply in Hsend |- * by (assumption || lia).
  cbn [fst snd] in *.
  injection Hsend as _ Htw. subst tw'. cbn [tx_frames] in Hframes.
  apply app_inv_head in Hframes. injection Hframes as ->.
  reflexivity.
Qed.

(** Receiving a packet with a payload from a bus that delivers its header
    and then its payload. *)
Lemma receive_packet_served tw rx header h0 h1 ch seq payload rest timeout_ms :
  Twim.initialized tw = true ->
  rx_replies tw
  = (4, [h0; h1; ch; seq]) :: (Z.of_nat (length payload), payload) :: rest ->
  0 <= h0 < 256 -> 0 <= h1 < 256 ->
  h0 + 256 * (h1 mod 128) = Z.of_nat (length payload) + 4 ->
  0 < Z.of_nat (length payload) ->
  Z.of_nat (length payload) + 4 <= 512 ->
  length (rx_buffer rx) = 512%nat ->
  length header = 4%nat ->
  bno085_receive_packet tw rx header timeout_ms
  = (Z.of_nat (length payload) + 4,
     set_rx rx
       (h0 :: h1 :: ch :: seq :: payload
          ++ drop (length payload + 4) (rx_buffer rx))
       (Z.of_nat (length payload) + 4),
     {| Twim.initialized := true; tx_replies := tx_replies tw;
        rx_replies := rest; tx_frames := tx_frames tw |}).
Proof.
  intros Hinit Hreplies Hh0 Hh1 Hlen Hpos Hfit Hrx Hhdr.
  set (n := length payload) in *.
  do 4 (destruct header as [|? header]; [discriminate Hhdr|]).
  destruct header; [|discriminate Hhdr].
  unfold bno085_receive_packet.
  set (tw1 := {| Twim.initialized := true; tx_replies := tx_replies tw;
                 rx_replies := (Z.of_nat n, payload) :: rest;
                 tx_frames := tx_frames tw |}).
  assert (Hread : twim_read tw (i2c_addr rx) 4 = (4, [h0; h1; ch; seq], tw1)).
  { unfold twim_read. rewrite Hinit, Hreplies. reflexivity. }
  rewrite Hread.
  change (memcpy_at [z; z0; z1; z2] 0 [h0; h1; ch; seq] 4)
    with [h0; h1; ch; seq].
  change (byte_at [h0; h1; ch; seq] 0) with h0.
  change (byte_at [h0; h1; ch; seq] 1) with h1.
  rewrite header_length, Hlen by assumption.
  change (4 <? 0) with false.
  replace (Z.of_nat n + 4 =? 0) with false by (symmetry; lia).
  unfold SHTP_HEADER_SIZE, RX_BUFFER_SIZE.
  replace (Z.of_nat n + 4 <? 4) with false by (symmetry; lia).
  replace (Z.of_nat n + 4 >? 512) with false by (symmetry; lia).
  replace (Z.of_nat n + 4 =? 32767) with false by (symmetry; lia).
  cbn [orb]. cbv iota.
  replace (u16 (Z.of_nat n + 4 - 4)) with (Z.of_nat n)
    by (unfold u16; rewrite Z.mod_small; lia).
  assert (Hbuf0 : memcpy_at (rx_buffer rx) 0 [h0; h1; ch; seq] 4
                  = h0 :: h1 :: ch :: seq :: drop 4 (rx_buffer rx)).
  { rewrite memcpy_at_spec; cbn [length]; try lia. reflexivity. }
  rewrite Hbuf0.
  replace (Z.of_nat n >? 0) with true by (symmetry; lia).
  assert (Hread2 : twim_read tw1 (i2c_addr rx) (Z.of_nat n)
                   = (Z.of_nat n, payload,
                      {| Twim.initialized := true; tx_replies := tx_replies tw;
                         rx_replies := rest; tx_frames := tx_frames tw |})).
  { unfold twim_read, tw1.
    cbn [Twim.initialized rx_replies negb tx_replies tx_frames].
    replace (Z.of_nat n =? 0) with false by (symmetry; lia).
    rewrite Nat2Z.id. unfold n. rewrite firstn_all. reflexivity. }
  rewrite Hread2.
  replace (Z.of_nat n <? 0) with false by (symmetry; lia).
  f_equal. f_equal. f_equal.
  rewrite memcpy_at_spec; cbn [length];
    try (subst n; rewrite ?length_drop; lia).
  rewrite Nat2Z.id. change (Z.to_nat 4) with 4%nat.
  unfold n at 1. rewrite firstn_all.
  cbn [take drop Nat.add app]. rewrite drop_drop.
  rewrite take_0. cbn [app]. do 6 f_equal. lia.
Qed.

(** A receive touches nothing of the handle but the receive buffer and its
    length. *)
Lemma receive_packet_keeps tw dev header timeout_ms :
  let dev' := snd (fst (bno085_receive_packet tw dev header timeout_ms)) in
  initialized dev' = initialized dev
  /\ sequence dev' = sequence dev
  /\ enabled_reports dev' = enabled_reports dev
  /\ i2c_addr dev' = i2c_addr dev.
Proof.
  unfold bno085_receive_packet.
  destruct (twim_read tw (i2c_addr dev) 4) as [[r stored] tw1].
  destruct (r <? 0); [cbn; auto|].
  match goal with |- context [if ?c then _ else _] => destruct c end;
    [cbn; auto|].
  match goal with |- context [if ?c then _ else _] => destruct c end;
    [cbn; auto|].
  match goal with |- context [if ?c then _ else _] => destruct c end;
    [cbn; auto|].
  match goal with |- context [if ?c then _ else _] => destruct c end;
    [|cbn; auto].
  match goal with |- context [twim_read ?a ?b ?c] =>
    destruct (twim_read a b c) as [[r2 stored2] tw2] end.
  destruct (r2 <? 0); cbn; auto.
Qed.

(** The results of a receive: an error code, 0, or a length above the
    header size limit only with a packet stored. *)
Lemma receive_packet_result tw dev header timeout_ms :
  let r := fst (fst (bno085_receive_packet tw dev header timeout_ms)) in
  r = BNO085_ERR_I2C \/ r = BNO085_ERR_INVALID_DATA
  \/ r = BNO085_ERR_BUFFER_OVERFLOW \/ r = 0 \/ 4 <= r <= 512.
Proof.
  unfold bno085_receive_packet.
  destruct (twim_read tw (i2c_addr dev) 4) as [[r stored] tw1].
  destruct (r <? 0); [cbn; auto|].
  match goal with |- context [if ?c then _ else _] => destruct c end;
    [cbn; auto|].
  match goal with |- context [if ?c then _ else _] => destruct c eqn:E1 end;
    [cbn; auto|].
  match goal with |- context [if ?c then _ else _] => destruct c eqn:E2 end;
    [cbn; auto|].
  unfold SHTP_HEADER_SIZE, RX_BUFFER_SIZE in *.
  match goal with |- context [if ?c then _ else _] => destruct c end.
  - match goal with |- context [twim_read ?a ?b ?c] =>
      destruct (twim_read a b c) as [[r2 stored2] tw2] end.
    destruct (r2 <? 0); cbn; auto. do 4 right. lia.
  - cbn. do 4 right. lia.
Qed.

(** A receive that returns more than the header size has stored that length
    in the handle. *)
Lemma receive_packet_len tw dev header timeout_ms :
  let r := fst (fst (bno085_receive_packet tw dev header timeout_ms)) in
  let dev' := snd (fst (bno085_receive_packet tw dev header timeout_ms)) in
  0 < r -> rx_len dev' = r.
Proof.
  unfold bno085_receive_packet.
  destruct (twim_read tw (i2c_addr dev) 4) as [[r stored] tw1].
  destruct (r <? 0); [cbn; unfold BNO085_ERR_I2C; lia|].
  match goal with |- context [if ?c then _ else _] => destruct c end;
    [cbn; lia|].
  match goal with |- context [if ?c then _ else _] => destruct c end;
    [cbn; unfold BNO085_ERR_INVALID_DATA; lia|].
  match goal with |- context [if ?c then _ else _] => destruct c end;
    [cbn; unfold BNO085_ERR_BUFFER_OVERFLOW; lia|].
  match goal with |- context [if ?c then _ else _] => destruct c end.
  - match goal with |- context [twim_read ?a ?b ?c] =>
      destruct (twim_read a b c) as [[r2 stored2] tw2] end.
    destruct (r2 <? 0); cbn; [unfold BNO085_ERR_I2C; lia|auto].
  - cbn. auto.
Qed.

(** The four bytes [(v >> 0) & 0xFF .. (v >> 24) & 0xFF] of a 32-bit value
    are bytes and put together give the value. *)
Lemma le32_split (v : Z) :
  0 <= v < 4294967296 ->
  let b := fun i => Z.land (Z.shiftr v (8 * i)) 0xFF in
  is_byte (b 0) /\ is_byte (b 1) /\ is_byte (b 2) /\ is_byte (b 3)
  /\ b 0 + 256 * b 1 + 65536 * b 2 + 16777216 * b 3 = v.
Proof.
  intros Hv b. unfold b, is_byte.
  rewrite !land_FF, !Z.shiftr_div_pow2 by lia.
  change (2 ^ (8 * 0)) with 1. change (2 ^ (8 * 1)) with 256.
  change (2 ^ (8 * 2)) with 65536. change (2 ^ (8 * 3)) with 16777216.
  rewrite Z.div_1_r.
  repeat split; try (apply Z.mod_pos_bound; lia).
  Z.to_euclidean_division_equations. lia.
Qed.

(** The bits of [enabled_reports] after [|= (1UL << n)]. *)
Lemma set_bit_spec (e n : Z) :
  0 <= n < 32 ->
  0 <= u32 (Z.lor e (Z.shiftl 1 n)) < 4294967296
  /\ forall k, 0 <= k < 32 ->
       Z.testbit (u32 (Z.lor e (Z.shiftl 1 n))) k
       = (k =? n) || Z.testbit e k.
Proof.
  intros Hn. split.
  - unfold u32. apply Z.mod_pos_bound. lia.
  - intros k Hk. unfold u32. change 4294967296 with (2 ^ 32).
    rewrite Z.mod_pow2_bits_low by lia.
    rewrite Z.lor_spec, Z.shiftl_1_l, Z.pow2_bits_eqb by lia.
    rewrite orb_comm, (Z.eqb_sym n k). reflexivity.
Qed.

(** The bits of [enabled_reports] after [&= ~(1UL << n)]. *)
Lemma clear_bit_spec (e n : Z) :
  0 <= e < 4294967296 ->
  0 <= n < 32 ->
  0 <= Z.land e (u32 (Z.lnot (Z.shiftl 1 n))) < 4294967296
  /\ forall k, 0 <= k < 32 ->
       Z.testbit (Z.land e (u32 (Z.lnot (Z.shiftl 1 n)))) k
       = negb (k =? n) && Z.testbit e k.
Proof.
  intros He Hn.
  assert (Hm : 0 <= u32 (Z.lnot (Z.shiftl 1 n)) < 4294967296)
    by (unfold u32; apply Z.mod_pos_bound; lia).
  split.
  - split; [apply Z.land_nonneg; lia|].
    destruct (Z.eq_dec e 0) as [-> | Hne]; [rewrite Z.land_0_l; lia|].
    set (x := Z.land e (u32 (Z.lnot (Z.shiftl 1 n)))).
    assert (Hx : 0 <= x) by (apply Z.land_nonneg; lia).
    destruct (Z.eq_dec x 0) as [-> | Hx0]; [lia|].
    change 4294967296 with (2 ^ 32).
    apply Z.log2_lt_pow2; [lia|].
    pose proof (Z.log2_land e (u32 (Z.lnot (Z.shiftl 1 n)))
                  ltac:(lia) ltac:(lia)) as Hl.
    fold x in Hl.
    assert (Z.log2 e < 32) by (apply Z.log2_lt_pow2; lia).
    lia.
  - intros k Hk. unfold u32. change 4294967296 with (2 ^ 32).
    rewrite Z.land_spec, Z.mod_pow2_bits_low by lia.
    rewrite Z.lnot_spec, Z.shiftl_1_l, Z.pow2_bits_eqb by lia.
    rewrite andb_comm, (Z.eqb_sym n k). reflexivity.
Qed.

Lemma set_feature_cmd_length rt i : length (set_feature_cmd rt i) = 17%nat.
Proof. reflexivity. Qed.

(** X1.  Enabling a report on an initialised handle, when the bus accepts
    the transfer, puts exactly one packet on the bus: the 17-byte Set
    Feature command on the control channel, with the report id, the
    interval in little-endian order and zeros elsewhere.  The call returns
    [BNO085_OK], advances the control channel's counter and sets bit
    [report_type] of [enabled_reports], leaving the other 31 bits. *)
Theorem enable_report_sends_set_feature
    (tw : twim_t) (dev : bno085_t) (tx_buffer : list Z)
    (report_type interval_us seq : Z) :
  Twim.initialized tw = true ->
  0 <= hd TWIM_ERR_TIMEOUT (tx_replies tw) ->
  initialized dev = true ->
  sequence dev !! 2%nat = Some seq ->
  length tx_buffer = 256%nat ->
  0 <= report_type < 32 ->
  0 <= interval_us < 4294967296 ->
  exists dev' tw' b0 b1 b2 b3,
    bno085_enable_report tw (Some dev) tx_buffer report_type interval_us
    = Some (BNO085_OK, Some dev', tw')
    /\ tx_frames tw'
       = tx_frames tw
         ++ [(i2c_addr dev,
              shtp_frame SHTP_CHANNEL_CONTROL seq
                [0xFD; report_type; 0; 0; b0; b1; b2; b3;
                 0; 0; 0; 0; 0; 0; 0; 0; 0])]
    /\ is_byte b0 /\ is_byte b1 /\ is_byte b2 /\ is_byte b3
    /\ b0 + 256 * b1 + 65536 * b2 + 16777216 * b3 = interval_us
    /\ sequence dev' = <[2%nat := u8 (seq + 1)]> (sequence dev)
    /\ (forall k, 0 <= k < 32 ->
          Z.testbit (enabled_reports dev') k
          = (k =? report_type) || Z.testbit (enabled_reports dev) k)
    /\ 0 <= enabled_reports dev' < 4294967296.
Proof.
  intros Hinit Hreply Hdev Hseq Htx Hrt Hint.
  destruct (le32_split interval_us Hint) as (B0 & B1 & B2 & B3 & Hsum).
  destruct (set_bit_spec (enabled_reports dev) report_type Hrt)
    as [Hrange Hbits].
  unfold bno085_enable_report. rewrite Hdev. cbn [negb].
  change 17 with (Z.of_nat (length (set_feature_cmd report_type interval_us))).
  rewrite (send_packet_reply tw dev tx_buffer SHTP_CHANNEL_CONTROL _ seq)
    by (assumption || (cbn; lia)).
  replace (hd TWIM_ERR_TIMEOUT (tx_replies tw) <? 0) with false
    by (symmetry; lia).
  cbn [mbind option_bind]. change (BNO085_OK =? BNO085_OK) with true.
  cbv iota. unfold report_bit.
  replace ((0 <=? report_type) && (report_type <? 32)) with true
    by (symmetry; apply andb_true_intro; split; lia).
  cbn [mbind option_bind].
  eexists _, _, _, _, _, _. split; [reflexivity|].
  cbn [tx_frames enabled_reports set_enabled_reports sequence set_sequence].
  split.
  { unfold set_feature_cmd, u8. rewrite (Z.mod_small report_type) by lia.
    reflexivity. }
  repeat split; try apply B0; try apply B1; try apply B2; try apply B3;
    try exact Hsum; try apply Hrange.
  exact Hbits.
Qed.

(** X2.  An enable request that does not return [BNO085_OK] never marks
    the report as enabled.  It fails in two ways only: the handle is not
    initialised (nothing is sent, nothing changes), or the bus transfer
    fails (one packet was started and the control channel's counter is
    used up all the same). *)
Theorem enable_report_failure_keeps_flags
    (tw : twim_t) (dev : bno085_t) (tx_buffer : list Z)
    (report_type interval_us r : Z) (dev' : option bno085_t) (tw' : twim_t) :
  bno085_enable_report tw (Some dev) tx_buffer report_type interval_us
  = Some (r, dev', tw') ->
  r <> BNO085_OK ->
  exists d',
    dev' = Some d'
    /\ enabled_reports d' = enabled_reports dev
    /\ (initialized dev = false ->
        r = BNO085_ERR_INVALID_PARAM /\ d' = dev /\ tw' = tw)
    /\ (initialized dev = true ->
        r = BNO085_ERR_I2C
        /\ exists seq,
             sequence dev !! 2%nat = Some seq
             /\ sequence d' = <[2%nat := u8 (seq + 1)]> (sequence dev)).
Proof.
  unfold bno085_enable_report.
  destruct (initialized dev) eqn:Hinit; cbn [negb].
  - unfold bno085_send_packet.
    change (u16 (17 + SHTP_HEADER_SIZE)) with 21.
    change (21 >? TX_BUFFER_SIZE) with false. cbv iota.
    change (Z.to_nat SHTP_CHANNEL_CONTROL) with 2%nat.
    destruct (sequence dev !! 2%nat) as [seq|] eqn:Hseq; [|discriminate].
    change (17 >? 0) with true. cbv iota.
    destruct ((4 + 17 <=? TX_BUFFER_SIZE)
              && (17 <=? Z.of_nat (length (set_feature_cmd report_type
                                              interval_us))));
      [|discriminate].
    match goal with |- context [twim_write ?a ?b ?c ?d ?e] =>
      destruct (twim_write a b c d e) as [res tw1] end.
    destruct (res <? 0); cbn [mbind option_bind].
    + change (BNO085_ERR_I2C =? BNO085_OK) with false. cbv iota.
      intros [= <- <- <-] _. eexists. split; [reflexivity|].
      split; [reflexivity|]. split; [discriminate|].
      intros _. split; [reflexivity|]. exists seq. split; reflexivity.
    + change (BNO085_OK =? BNO085_OK) with true. cbv iota.
      destruct (report_bit report_type); cbn [mbind option_bind];
        [|discriminate].
      intros [= <- <- <-] Hne. contradiction Hne. reflexivity.
  - intros [= <- <- <-] _. exists dev. split; [reflexivity|].
    split; [reflexivity|]. split; [auto|discriminate].
Qed.

(** X3.  Disabling a report sends the Set Feature command with interval 0
    and, when the bus accepts the transfer, clears bit [report_type] of
    [enabled_reports] and leaves the other bits. *)
Theorem disable_report_clears_flag
    (tw : twim_t) (dev : bno085_t) (tx_buffer : list Z)
    (report_type seq : Z) :
  Twim.initialized tw = true ->
  0 <= hd TWIM_ERR_TIMEOUT (tx_replies tw) ->
  initialized dev = true ->
  sequence dev !! 2%nat = Some seq ->
  length tx_buffer = 256%nat ->
  0 <= report_type < 32 ->
  exists dev' tw',
    bno085_disable_report tw (Some dev) tx_buffer report_type
    = Some (BNO085_OK, Some dev', tw')
    /\ tx_frames tw'
       = tx_frames tw
         ++ [(i2c_addr dev,
              shtp_frame SHTP_CHANNEL_CONTROL seq
                [0xFD; report_type; 0; 0; 0; 0; 0; 0;
                 0; 0; 0; 0; 0; 0; 0; 0; 0])]
    /\ sequence dev' = <[2%nat := u8 (seq + 1)]> (sequence dev)
    /\ (forall k, 0 <= k < 32 ->
          Z.testbit (enabled_reports dev') k
          = negb (k =? report_type) && Z.testbit (enabled_reports dev) k)
    /\ 0 <= enabled_reports dev' < 4294967296.
Proof.
  intros Hinit Hreply Hdev Hseq Htx Hrt.
  destruct (set_bit_spec (enabled_reports dev) report_type Hrt)
    as [Hrange Hbits].
  destruct (clear_bit_spec
              (u32 (Z.lor (enabled_reports dev) (Z.shiftl 1 report_type)))
              report_type Hrange Hrt) as [Hrange' Hbits'].
  unfold bno085_disable_report, bno085_enable_report.
  rewrite Hdev. cbn [negb].
  change 17 with (Z.of_nat (length (set_feature_cmd report_type 0))).
  rewrite (send_packet_reply tw dev tx_buffer SHTP_CHANNEL_CONTROL _ seq)
    by (assumption || (cbn; lia)).
  replace (hd TWIM_ERR_TIMEOUT (tx_replies tw) <? 0) with false
    by (symmetry; lia).
  cbn [mbind option_bind]. change (BNO085_OK =? BNO085_OK) with true.
  cbv iota. unfold report_bit.
  replace ((0 <=? report_type) && (report_type <? 32)) with true
    by (symmetry; apply andb_true_intro; split; lia).
  cbn [mbind option_bind]. change (BNO085_OK =? BNO085_OK) with true.
  cbv iota.
  eexists _, _. split; [reflexivity|].
  cbn [tx_frames enabled_reports set_enabled_reports sequence set_sequence].
  split.
  { unfold set_feature_cmd, u8. rewrite (Z.mod_small report_type) by lia.
    reflexivity. }
  split; [reflexivity|]. split; [|exact Hrange'].
  intros k Hk. rewrite Hbits', Hbits by assumption.
  destruct (k =? report_type); reflexivity.
Qed.


(** The polling loop of the convenience getters leaves the driver's cache
    as it was. *)
Lemma poll_until_keeps_cache attempts wanted tw dev stack data cache :
  snd (fst (poll_until attempts wanted tw dev stack data cache)) = cache.
Proof.
  revert tw dev data.
  induction attempts as [|n IH]; intros tw dev data; [reflexivity|].
  cbn [poll_until]. unfold bno085_poll.
  destruct dev as [d|].
  - destruct (negb (initialized d)); [reflexivity|].
    destruct (bno085_receive_packet tw d (stack n) 0) as [[r d1] tw1].
    destruct (r <=? 0) eqn:Hr.
    + cbn [default]. destruct (r <? 0); [reflexivity|].
      destruct (wanted r); [reflexivity|]. apply IH.
    + destruct (bno085_parse_sensor_report d1 data) as [r2 user].
      cbn [default]. destruct (r2 <? 0); [reflexivity|].
      destruct (wanted r2); [reflexivity|]. apply IH.
  - reflexivity.
Qed.

(** X5.  [bno085_get_rotation_vector], [bno085_get_accelerometer] and
    [bno085_get_gyroscope] decode into a buffer of their own: whatever the
    bus delivers, the cache that [bno085_get_all_data] copies out is the
    same after the call as before, so [bno085_get_all_data] does not see
    the samples they return. *)
Theorem getters_never_refresh_cache
    (tw : twim_t) (dev : option bno085_t) (stack : nat -> list Z)
    (data cache out : bno085_data_t) (later : bno085_t)
    (quat : option bno085_quaternion_t) (vec : option bno085_vector_t) :
  let after_quat :=
    snd (bno085_get_rotation_vector tw dev stack data cache quat) in
  let after_accel :=
    snd (bno085_get_accelerometer tw dev stack data cache vec) in
  let after_gyro :=
    snd (bno085_get_gyroscope tw dev stack data cache vec) in
  after_quat = cache /\ after_accel = cache /\ after_gyro = cache
  /\ bno085_get_all_data (Some later) (Some out) after_quat
     = (BNO085_OK, Some cache).
Proof.
  cbv zeta.
  assert (Hq : snd (bno085_get_rotation_vector tw dev stack data cache quat)
               = cache).
  { unfold bno085_get_rotation_vector.
    destruct dev as [d|]; [|reflexivity].
    destruct quat as [q|]; [|reflexivity].
    match goal with |- context [poll_until ?a ?w ?b ?c ?e ?f ?g] =>
      pose proof (poll_until_keeps_cache a w b c e f g) as Hc;
      destruct (poll_until a w b c e f g) as [[[[[r d1] tw1] data1] c1] found]
    end.
    cbn [fst snd] in Hc. subst c1.
    destruct found; [destruct (r =? SH2_GAME_ROTATION_VECTOR)|]; reflexivity. }
  split; [exact Hq|]. split; [|split].
  - unfold bno085_get_accelerometer.
    destruct dev as [d|]; [|reflexivity].
    destruct vec as [v|]; [|reflexivity].
    match goal with |- context [poll_until ?a ?w ?b ?c ?e ?f ?g] =>
      pose proof (poll_until_keeps_cache a w b c e f g) as Hc;
      destruct (poll_until a w b c e f g) as [[[[[r d1] tw1] data1] c1] found]
    end.
    cbn [fst snd] in Hc. subst c1. destruct found; reflexivity.
  - unfold bno085_get_gyroscope.
    destruct dev as [d|]; [|reflexivity].
    destruct vec as [v|]; [|reflexivity].
    match goal with |- context [poll_until ?a ?w ?b ?c ?e ?f ?g] =>
      pose proof (poll_until_keeps_cache a w b c e f g) as Hc;
      destruct (poll_until a w b c e f g) as [[[[[r d1] tw1] data1] c1] found]
    end.
    cbn [fst snd] in Hc. subst c1. destruct found; reflexivity.
  - rewrite Hq. reflexivity.
Qed.

(** One more turn of the wait loop: the loop started with [elapsed]
    ends within the iterations [timeout_ms] leaves, with success or a
    timeout. *)
Lemma wait_for_advertisement_loop_ends fuel :
  forall tw dev stack advertisement timeout_ms elapsed,
    0 <= elapsed ->
    (elapsed mod 10 = 0) ->
    timeout_ms <= 4294967290 ->
    timeout_ms <= elapsed + 10 * Z.of_nat fuel ->
    exists r dev' tw',
      wait_for_advertisement_loop (S fuel) tw dev stack advertisement
        timeout_ms elapsed = Some (r, dev', tw')
      /\ (r = BNO085_ERR_TIMEOUT
          \/ r = BNO085_OK
             /\ rx_channel dev' = SHTP_CHANNEL_COMMAND
             /\ byte_at (rx_buffer dev') 4 = advertisement
             /\ 4 < rx_len dev').
Proof.
  induction fuel as [|n IH];
    intros tw dev stack advertisement timeout_ms elapsed Hel Hmod Hmax Hfuel.
  - cbn [wait_for_advertisement_loop].
    replace (elapsed <? timeout_ms) with false by (symmetry; lia).
    eexists _, _, _. split; [reflexivity|]. left. reflexivity.
  - remember (S n) as m eqn:Hm.
    cbn [wait_for_advertisement_loop].
    destruct (elapsed <? timeout_ms) eqn:Hlt.
    + pose proof (receive_packet_result tw dev (stack m) 100) as Hres.
      destruct (bno085_receive_packet tw dev (stack m) 100)
        as [[r d1] tw1] eqn:Hrecv.
      cbn [fst] in Hres.
      destruct ((r >? SHTP_HEADER_SIZE)
                && (byte_at (rx_buffer d1) 2 =? SHTP_CHANNEL_COMMAND)
                && (byte_at (rx_buffer d1) 4 =? advertisement)) eqn:Hfound.
      * eexists _, _, _. split; [reflexivity|]. right.
        apply andb_true_iff in Hfound as [Hfound H4].
        apply andb_true_iff in Hfound as [Hgt H2].
        split; [reflexivity|]. split; [unfold rx_channel; lia|].
        split; [lia|].
        unfold SHTP_HEADER_SIZE in Hgt.
        pose proof (receive_packet_len tw dev (stack m) 100) as Hrl.
        rewrite Hrecv in Hrl. cbn [fst snd] in Hrl.
        specialize (Hrl ltac:(lia)).
        lia.
      * subst m.
        assert (Hu : u32 (elapsed + 10) = elapsed + 10).
        { unfold u32. apply Z.mod_small.
          Z.to_euclidean_division_equations. lia. }
        rewrite Hu. apply IH; try lia.
        rewrite Z.add_mod, Hmod by lia. reflexivity.
    + eexists _, _, _. split; [reflexivity|]. left. reflexivity.
Qed.

(** X6.  [bno085_wait_for_advertisement] with a timeout of at most
    4294967290 ms makes at most [timeout_ms / 10] (rounded up) receive
    attempts and then returns.  It returns [BNO085_OK] only with a packet
    on the command channel whose first payload byte is the advertisement
    looked for; every other outcome, bus errors included, is reported as
    [BNO085_ERR_TIMEOUT]. *)
Theorem wait_for_advertisement_ends
    (tw : twim_t) (dev : bno085_t) (stack : nat -> list Z)
    (advertisement timeout_ms : Z) (fuel : nat) :
  0 <= timeout_ms <= 4294967290 ->
  timeout_ms <= 10 * Z.of_nat fuel ->
  exists r dev' tw',
    bno085_wait_for_advertisement (S fuel) tw dev stack advertisement
      timeout_ms = Some (r, dev', tw')
    /\ (r = BNO085_ERR_TIMEOUT
        \/ r = BNO085_OK
           /\ rx_channel dev' = SHTP_CHANNEL_COMMAND
           /\ byte_at (rx_buffer dev') 4 = advertisement
           /\ 4 < rx_len dev').
Proof.
  intros Ht Hfuel. unfold bno085_wait_for_advertisement.
  apply wait_for_advertisement_loop_ends; try lia. reflexivity.
Qed.

(** [lo | (hi << n)] adds when [lo] has no bit at or above [n]. *)
Lemma lor_shiftl_add (lo hi n : Z) :
  0 <= n -> 0 <= lo < 2 ^ n ->
  Z.lor lo (Z.shiftl hi n) = lo + hi * 2 ^ n.
Proof.
  intros Hn Hlo.
  assert (Hland : Z.land lo (Z.shiftl hi n) = 0).
  { apply Z.bits_inj'. intros k Hk. rewrite Z.land_spec, Z.bits_0.
    destruct (Z.lt_ge_cases k n) as [Hlt | Hge].
    - rewrite (Z.shiftl_spec_low hi n k) by lia. apply andb_false_r.
    - replace (Z.testbit lo k) with false; [reflexivity|].
      symmetry. destruct (Z.eq_dec lo 0) as [-> | Hne];
        [apply Z.bits_0|apply Z.bits_above_log2; [lia|]].
      assert (Z.log2 lo < n) by (apply Z.log2_lt_pow2; lia). lia. }
  rewrite <- Z.lxor_lor, <- Z.add_nocarry_lxor by assumption.
  rewrite Z.shiftl_mul_pow2 by lia. reflexivity.
Qed.

(** Four bytes put together least significant first. *)
Lemma le_uint32_sum (b0 b1 b2 b3 : Z) :
  is_byte b0 -> is_byte b1 -> is_byte b2 -> is_byte b3 ->
  le_uint32 b0 b1 b2 b3 = b0 + 256 * b1 + 65536 * b2 + 16777216 * b3.
Proof.
  unfold is_byte, le_uint32. intros H0 H1 H2 H3.
  rewrite (lor_shiftl_add b0 b1 8) by lia.
  rewrite (lor_shiftl_add _ b2 16) by lia.
  rewrite (lor_shiftl_add _ b3 24) by lia.
  change (2 ^ 8) with 256. change (2 ^ 16) with 65536.
  change (2 ^ 24) with 16777216.
  unfold u32. rewrite Z.mod_small; lia.
Qed.

(** X7.  [bno085_get_product_id] sends the two-byte Product ID Request on
    the control channel and, when the sensor answers with a Product ID
    Response, returns [BNO085_OK] with the fields of the response: reset
    cause, major and minor version as single bytes, part number and build
    number as little-endian 32-bit values and the patch level as a
    little-endian 16-bit value.  The handle need not be initialised. *)
Theorem get_product_id_decodes_response
    (tw : twim_t) (dev : bno085_t) (tx_buffer : list Z)
    (stack : nat -> list Z) (product_id : shtp_product_id_t)
    (sq h0 h1 seq rc major minor p0 p1 p2 p3 b0 b1 b2 b3 v0 v1 : Z)
    (more : list Z) (rest : list (Z * list Z)) :
  let body := [ SH2_CMD_PRODUCT_ID_RESP; rc; major; minor; p0; p1; p2; p3;
                b0; b1; b2; b3; v0; v1 ] ++ more in
  Twim.initialized tw = true ->
  0 <= hd TWIM_ERR_TIMEOUT (tx_replies tw) ->
  rx_replies tw
  = (4, [h0; h1; SHTP_CHANNEL_CONTROL; seq])
      :: (Z.of_nat (length body), body) :: rest ->
  sequence dev !! 2%nat = Some sq ->
  length tx_buffer = 256%nat ->
  length (rx_buffer dev) = 512%nat ->
  length (stack 9%nat) = 4%nat ->
  0 <= h0 < 256 -> 0 <= h1 < 256 ->
  h0 + 256 * (h1 mod 128) = Z.of_nat (length body) + 4 ->
  Z.of_nat (length body) + 4 <= 512 ->
  Forall is_byte [p0; p1; p2; p3; b0; b1; b2; b3; v0; v1] ->
  exists dev' tw',
    bno085_get_product_id tw (Some dev) tx_buffer stack (Some product_id)
    = Some (BNO085_OK, Some dev', tw',
            Some {| pid_reset_cause := rc;
                    pid_sw_version_major := major;
                    pid_sw_version_minor := minor;
                    pid_sw_part_number :=
                      p0 + 256 * p1 + 65536 * p2 + 16777216 * p3;
                    pid_sw_build_number :=
                      b0 + 256 * b1 + 65536 * b2 + 16777216 * b3;
                    pid_sw_version_patch := v0 + 256 * v1 |})
    /\ tx_frames tw'
       = tx_frames tw
         ++ [(i2c_addr dev, shtp_frame SHTP_CHANNEL_CONTROL sq [0xF9; 0])]
    /\ rx_replies tw' = rest
    /\ rx_payload dev' = body.
Proof.
  intros body Hinit Hreply Hreplies Hseq Htx Hrx Hstack Hh0 Hh1 Hlen Hfit
    Hbytes.
  repeat match goal with
         | H : Forall _ (_ :: _) |- _ =>
             apply Forall_cons_1 in H; destruct H as [? H]
         end.
  unfold bno085_get_product_id.
  change 2 with (Z.of_nat (length [SH2_CMD_PRODUCT_ID_REQ; 0])) at 1.
  rewrite (send_packet_reply tw dev tx_buffer SHTP_CHANNEL_CONTROL _ sq)
    by (assumption || (cbn; lia)).
  replace (hd TWIM_ERR_TIMEOUT (tx_replies tw) <? 0) with false
    by (symmetry; lia).
  cbn [mbind option_bind]. change (BNO085_OK =? BNO085_OK) with true.
  cbn [negb]. cbv iota.
  change (product_id_loop 10) with (product_id_loop (S 9)).
  cbn [product_id_loop].
  set (dev1 := set_sequence dev _).
  set (tw1 := {| Twim.initialized := true; tx_replies := _;
                 rx_replies := _; tx_frames := _ |}).
  assert (Hpos : 0 < Z.of_nat (length body)) by (unfold body; cbn; lia).
  rewrite (receive_packet_served tw1 dev1 (stack 9%nat) h0 h1
             SHTP_CHANNEL_CONTROL seq body rest 100);
    try assumption; try reflexivity.
  replace (Z.of_nat (length body) + 4 <=? SHTP_HEADER_SIZE) with false
    by (symmetry; unfold SHTP_HEADER_SIZE; lia).
  set (dev2 := set_rx dev1 _ _).
  destruct (rx_view dev1 h0 h1 SHTP_CHANNEL_CONTROL seq body
              (drop (length body + 4) (rx_buffer dev1)))
    as (_ & Hpay & _).
  fold dev2 in Hpay.
  change (byte_at (rx_buffer dev2) 2) with SHTP_CHANNEL_CONTROL.
  change (byte_at (rx_buffer dev2) 4) with SH2_CMD_PRODUCT_ID_RESP.
  rewrite !Z.eqb_refl. cbn [andb]. cbv iota.
  assert (Hpid : product_id_of dev2
                 = {| pid_reset_cause := rc;
                      pid_sw_version_major := major;
                      pid_sw_version_minor := minor;
                      pid_sw_part_number :=
                        p0 + 256 * p1 + 65536 * p2 + 16777216 * p3;
                      pid_sw_build_number :=
                        b0 + 256 * b1 + 65536 * b2 + 16777216 * b3;
                      pid_sw_version_patch := v0 + 256 * v1 |}).
  { unfold product_id_of.
    change (byte_at (rx_buffer dev2) (4 + 1)) with rc.
    change (byte_at (rx_buffer dev2) (4 + 2)) with major.
    change (byte_at (rx_buffer dev2) (4 + 3)) with minor.
    change (byte_at (rx_buffer dev2) (4 + 4)) with p0.
    change (byte_at (rx_buffer dev2) (4 + 5)) with p1.
    change (byte_at (rx_buffer dev2) (4 + 6)) with p2.
    change (byte_at (rx_buffer dev2) (4 + 7)) with p3.
    change (byte_at (rx_buffer dev2) (4 + 8)) with b0.
    change (byte_at (rx_buffer dev2) (4 + 9)) with b1.
    change (byte_at (rx_buffer dev2) (4 + 10)) with b2.
    change (byte_at (rx_buffer dev2) (4 + 11)) with b3.
    change (byte_at (rx_buffer dev2) (4 + 12)) with v0.
    change (byte_at (rx_buffer dev2) (4 + 13)) with v1.
    rewrite !le_uint32_sum by assumption.
    rewrite lor_shiftl_byte by (unfold is_byte in *; lia).
    unfold u16. rewrite Z.mod_small by (unfold is_byte in *; lia).
    reflexivity. }
  rewrite Hpid.
  eexists _, _. split; [reflexivity|].
  split; [reflexivity|]. split; [reflexivity|exact Hpay].
Qed.



Lemma enable_report_sends_set_feature_witness :
  exists dev' tw',
    bno085_enable_report (bus_write_ok 21) (Some dev0) (repeat 0 256)
      SH2_ROTATION_VECTOR 5000 = Some (BNO085_OK, Some dev', tw')
    /\ tx_frames tw'
       = [(0x4A, [21; 0; 2; 0; 0xFD; 5; 0; 0; 0x88; 0x13; 0; 0;
                  0; 0; 0; 0; 0; 0; 0; 0; 0])]
    /\ enabled_reports dev' = 32.
Proof.
  destruct (enable_report_sends_set_feature (bus_write_ok 21) dev0
              (repeat 0 256) SH2_ROTATION_VECTOR 5000 0)
    as (dev' & tw' & b0 & b1 & b2 & b3 & Hrun & _);
    try reflexivity; try (vm_compute; intuition discriminate).
  exists dev', tw'. vm_compute in Hrun. injection Hrun as <- <-.
  repeat split; reflexivity.
Defined.

Lemma enable_report_failure_keeps_flags_witness :
  exists d' tw',
    bno085_enable_report bus_write_nack (Some dev0) (repeat 0 256)
      SH2_ROTATION_VECTOR 5000 = Some (BNO085_ERR_I2C, Some d', tw')
    /\ enabled_reports d' = 0
    /\ sequence d' = [0; 0; 1; 0; 0; 0].
Proof.
  eexists _, _. split; [vm_compute; reflexivity|].
  destruct (enable_report_failure_keeps_flags bus_write_nack dev0
              (repeat 0 256) SH2_ROTATION_VECTOR 5000 BNO085_ERR_I2C
              _ _ eq_refl) as (d' & Hd & Hflags & _ & Hseq);
    [vm_compute; discriminate|].
  injection Hd as <-. split; [exact Hflags|].
  destruct (Hseq eq_refl) as (_ & seq & Hs & Hs'). reflexivity.
Defined.

Lemma disable_report_clears_flag_witness :
  exists dev' tw',
    bno085_disable_report (bus_write_ok 21)
      (Some (set_enabled_reports dev0 34)) (repeat 0 256) SH2_ROTATION_VECTOR
    = Some (BNO085_OK, Some dev', tw')
    /\ enabled_reports dev' = 2.
Proof.
  destruct (disable_report_clears_flag (bus_write_ok 21)
              (set_enabled_reports dev0 34) (repeat 0 256)
              SH2_ROTATION_VECTOR 0)
    as (dev' & tw' & Hrun & _);
    try reflexivity; try (vm_compute; intuition discriminate).
  exists dev', tw'. vm_compute in Hrun. injection Hrun as <- <-.
  split; reflexivity.
Defined.


Lemma wait_for_advertisement_ends_witness :
  exists dev' tw',
    bno085_wait_for_advertisement 51 (bus [] []) dev0 zero_stack
      SH2_RESET_COMPLETE 500 = Some (BNO085_ERR_TIMEOUT, dev', tw')
  /\ exists dev' tw',
    bno085_wait_for_advertisement 51 (bus [] (served reset_advertisement))
      dev0 zero_stack SH2_RESET_COMPLETE 500 = Some (BNO085_OK, dev', tw').
Proof.
  destruct (wait_for_advertisement_ends (bus [] []) dev0 zero_stack
              SH2_RESET_COMPLETE 500 50)
    as (r & dev' & tw' & Hrun & _); [lia|lia|].
  exists dev', tw'. split.
  - vm_compute in Hrun. injection Hrun as <- <- <-. reflexivity.
  - eexists _, _. vm_compute. reflexivity.
Defined.

Lemma get_product_id_decodes_response_witness :
  exists dev' tw',
    bno085_get_product_id (bus [6] (served product_id_response)) (Some dev0)
      (repeat 0 256) zero_stack (Some no_product_id)
    = Some (BNO085_OK, Some dev', tw',
            Some {| pid_reset_cause := 1; pid_sw_version_major := 3;
                    pid_sw_version_minor := 2;
                    pid_sw_part_number := 10003608;
                    pid_sw_build_number := 370;
                    pid_sw_version_patch := 7 |}).
Proof.
  destruct (get_product_id_decodes_response
              (bus [6] (served product_id_response)) dev0 (repeat 0 256)
              zero_stack no_product_id 0 20 0 0 1 3 2 0x98 0xA4 0x98 0x00
              0x72 0x01 0 0 7 0 [0; 0] [])
    as (dev' & tw' & Hrun & _);
    try reflexivity; try (vm_compute; intuition discriminate).
  - repeat constructor; vm_compute; intuition discriminate.
  - exists dev', tw'. exact Hrun.
Defined.

